(** * luminoth/train.py: the detection training driver

    A shallow embedding of [train.py]: dataset dispatch ([get_dataset]),
    the worker ([main_worker]) with its cloud-bucket detection, loader
    construction and epoch loop, and the launcher under
    [if __name__ == "__main__"].

    Calls into the framework (torch, torchvision, google.cloud, [utils],
    [engine], [datasets]) are recorded as events of a trace, in program
    order; the objects they build are kept as symbolic descriptions of
    the call that built them.  A framework call is taken to return
    normally.  What the program reads from its surroundings (the URL
    parser, the distributed context, the CUDA devices, the clock) is
    gathered in a record [Env]. *)

From Stdlib Require Import ZArith List String Ascii Bool Lia.
From Stdlib Require Import DecimalString Floats.
From Stdlib Require DecimalPos DecimalZ.
Import ListNotations.

Local Open Scope string_scope.
Local Open Scope Z_scope.

#[local] Set Warnings "-inexact-float".

(* ================================================================== *)
(** ** Python strings *)

Module Py.

(** [c in s] for a one-character [c]. *)
Fixpoint contains (c : ascii) (s : string) : bool :=
  match s with
  | EmptyString => false
  | String a r => Ascii.eqb a c || contains c r
  end.

(** [s.split(c, 1)] when [c in s]: the text before the first [c] and
    the text after it; [None] when [c] does not occur. *)
Fixpoint split_once (c : ascii) (s : string) : option (string * string) :=
  match s with
  | EmptyString => None
  | String a r =>
      if Ascii.eqb a c then Some (EmptyString, r)
      else match split_once c r with
           | Some (h, t) => Some (String a h, t)
           | None => None
           end
  end.

(** [s.partition(c)] without the separator: the text before the first
    [c] and the text after it; the whole text and [""] when [c] does not
    occur. *)
Definition partition (c : ascii) (s : string) : string * string :=
  match split_once c s with
  | Some (h, t) => (h, t)
  | None => (s, EmptyString)
  end.

(** [s[n:]]. *)
Fixpoint slice_from (n : nat) (s : string) : string :=
  match n, s with
  | O, _ => s
  | S _, EmptyString => EmptyString
  | S n', String _ r => slice_from n' r
  end.

(** [s.startswith(p)]. *)
Fixpoint startswith (s p : string) {struct p} : bool :=
  match p, s with
  | EmptyString, _ => true
  | String _ _, EmptyString => false
  | String b p', String a s' => Ascii.eqb a b && startswith s' p'
  end.

Fixpoint endswith_char (s : string) (c : ascii) : bool :=
  match s with
  | EmptyString => false
  | String a EmptyString => Ascii.eqb a c
  | String _ r => endswith_char r c
  end.

(** Truth value of a string: non-empty. *)
Definition truthy (s : string) : bool :=
  match s with EmptyString => false | String _ _ => true end.

Definition is_upper (a : ascii) : bool :=
  let n := nat_of_ascii a in (65 <=? n)%nat && (n <=? 90)%nat.
Definition is_lower (a : ascii) : bool :=
  let n := nat_of_ascii a in (97 <=? n)%nat && (n <=? 122)%nat.
Definition is_digit (a : ascii) : bool :=
  let n := nat_of_ascii a in (48 <=? n)%nat && (n <=? 57)%nat.

Definition lower_char (a : ascii) : ascii :=
  if is_upper a then ascii_of_nat (nat_of_ascii a + 32) else a.

(** [s.lower()] on ASCII letters. *)
Fixpoint lower (s : string) : string :=
  match s with
  | EmptyString => EmptyString
  | String a r => String (lower_char a) (lower r)
  end.

Fixpoint all_chars (p : ascii -> bool) (s : string) : bool :=
  match s with
  | EmptyString => true
  | String a r => p a && all_chars p r
  end.

(** ['{}'.format(n)] for an integer. *)
Definition str_of_int (n : Z) : string := NilZero.string_of_int (Z.to_int n).

(** [len(l)] as a Python integer. *)
Definition len {A : Type} (l : list A) : Z := Z.of_nat (List.length l).

(** [x in l] for a list of integers. *)
Definition mem (x : Z) (l : list Z) : bool := existsb (Z.eqb x) l.

(** [posixpath.join(a, b)]. *)
Definition path_join (a b : string) : string :=
  if startswith b "/" then b
  else if negb (truthy a) || endswith_char a "/" then a ++ b
  else a ++ "/" ++ b.

(** The integer nearest to the exact quotient [n / 2**k], a tie going
    to the even one. *)
Definition round_div_pow2 (n : Z) (k : Z) : Z :=
  let d := 2 ^ k in
  let q := n / d in
  let r := n mod d in
  if 2 * r <? d then q
  else if d <? 2 * r then q + 1
  else if Z.even q then q else q + 1.

(** The binary64 number nearest to the integer [n >= 0], a tie going to
    the even mantissa: an integer of at most 53 bits is itself, a
    longer one keeps its 53 leading bits, rounded.  (From [2**1024] up
    there is no such number and Python raises [OverflowError].) *)
Definition nearest_double (n : Z) : Z :=
  let bits := Z.log2 n + 1 in
  if bits <=? 53 then n
  else let s := bits - 53 in round_div_pow2 n s * 2 ^ s.

(** [round(n / 2**k)] for an integer [0 <= n < 2**1024] and [k >= 0].
    The true division gives the binary64 number nearest to the exact
    quotient, which for a power of two is [nearest_double n] scaled by
    [2**k]; [round] then takes the nearest integer, a tie going to the
    even one. *)
Definition round_true_div_pow2 (n : Z) (k : Z) : Z :=
  round_div_pow2 (nearest_double n) k.

End Py.

(* ================================================================== *)
(** ** [urllib.parse.urlparse]

    The six-field result and a model of [urlsplit] and [urlparse] as
    CPython 3.9.0 to 3.9.4 have them, on text: characters are code
    points below 256, on which [_checknetloc] never raises.  Later
    releases first strip leading spaces and control characters, delete
    tab, CR and LF, and validate a bracketed host; on a URL without such
    characters and without brackets they parse as this model does.  The
    program reaches the parser through [Env], so that nothing proved
    for every [Env] depends on the release. *)

Record ParseResult : Type := mkParseResult {
  scheme : string;
  netloc : string;
  path : string;
  params : string;
  query : string;
  fragment : string
}.

Module Urllib.

(** [scheme_chars]: letters, digits and ["+-."]. *)
Definition scheme_char (a : ascii) : bool :=
  Py.is_lower a || Py.is_upper a || Py.is_digit a
  || Ascii.eqb a "+" || Ascii.eqb a "-" || Ascii.eqb a ".".

(** [uses_params]. *)
Definition uses_params : list string :=
  [""; "ftp"; "hdl"; "prospero"; "http"; "imap"; "https"; "shttp";
   "rtsp"; "rtspu"; "sip"; "sips"; "mms"; "sftp"; "tel"].

Definition netloc_delim (a : ascii) : bool :=
  Ascii.eqb a "/" || Ascii.eqb a "?" || Ascii.eqb a "#".

(** [_splitnetloc(url, 0)] on the text after the two slashes: the
    domain runs up to the earliest of ['/'], ['?'], ['#']. *)
Fixpoint splitnetloc (s : string) : string * string :=
  match s with
  | EmptyString => (EmptyString, EmptyString)
  | String a r =>
      if netloc_delim a then (EmptyString, s)
      else let (d, t) := splitnetloc r in (String a d, t)
  end.

(** The scheme, when the text before the first [':'] is non-empty and
    made of scheme characters, and the rest of the URL. *)
Definition split_scheme (url : string) : string * string :=
  match Py.split_once ":" url with
  | Some (pre, rest) =>
      if Py.truthy pre && Py.all_chars scheme_char pre
      then (Py.lower pre, rest)
      else (EmptyString, url)
  | None => (EmptyString, url)
  end.

Definition bad_brackets (nl : string) : bool :=
  (Py.contains "[" nl && negb (Py.contains "]" nl))
  || (Py.contains "]" nl && negb (Py.contains "[" nl)).

(** [urlsplit(url)]: scheme, netloc, path, query, fragment; [None] is
    [ValueError("Invalid IPv6 URL")]. *)
Definition urlsplit (url : string)
  : option (string * string * string * string * string) :=
  let (sch, url1) := split_scheme url in
  let (nl, url2) :=
    if Py.startswith url1 "//" then splitnetloc (Py.slice_from 2 url1)
    else (EmptyString, url1) in
  if bad_brackets nl then None
  else
    let (url3, frag) := Py.partition "#" url2 in
    let (url4, qry) := Py.partition "?" url3 in
    Some (sch, nl, url4, qry, frag).

(** [s.rpartition('/')] with the separator kept on the head: the text
    up to and including the last ['/'], and the text after it. *)
Fixpoint split_last_slash (s : string) : string * string :=
  match s with
  | EmptyString => (EmptyString, EmptyString)
  | String a r =>
      if Py.contains "/" r then
        let (h, t) := split_last_slash r in (String a h, t)
      else if Ascii.eqb a "/" then (String a EmptyString, r)
      else (EmptyString, s)
  end.

(** [_splitparams(url)]: the first [';'] of the last path segment. *)
Definition splitparams (url : string) : string * string :=
  let (h, t) := split_last_slash url in
  match Py.split_once ";" t with
  | Some (a, b) => (h ++ a, b)
  | None => (url, EmptyString)
  end.

Definition in_uses_params (s : string) : bool :=
  existsb (String.eqb s) uses_params.

Definition urlparse (url : string) : option ParseResult :=
  match urlsplit url with
  | None => None
  | Some (sch, nl, p, qry, frag) =>
      let (p', prm) :=
        if in_uses_params sch && Py.contains ";" p then splitparams p
        else (p, EmptyString) in
      Some (mkParseResult sch nl p' prm qry frag)
  end.

End Urllib.

(* ================================================================== *)
(** ** The parsed command line *)

(** The namespace [parser.parse_args()] returns: one field per flag, in
    the order of the [add_argument] calls. *)
Record Args : Type := mkArgs {
  data_path : string;
  dataset : string;
  model : string;
  device : string;
  batch_size : Z;
  epochs : Z;
  workers : Z;
  lr : float;
  momentum : float;
  weight_decay : float;
  lr_step_size : Z;
  lr_steps : list Z;
  lr_gamma : float;
  print_freq : Z;
  output_dir : string;
  resume : string;
  aspect_ratio_group_factor : Z;
  test_only : bool;
  pretrained : bool;
  world_size : Z;
  node_rank : Z;
  dist_url : string;
  local_gpus : list Z
}.

(** The declared defaults. *)
Definition default_args : Args := {|
  data_path := "/datasets01/COCO/022719/";
  dataset := "coco";
  model := "fasterrcnn_resnet50_fpn";
  device := "cuda";
  batch_size := 2;
  epochs := 13;
  workers := 4;
  lr := 0.02%float;
  momentum := 0.9%float;
  weight_decay := 0.0001%float;
  lr_step_size := 8;
  lr_steps := [8; 11];
  lr_gamma := 0.1%float;
  print_freq := 20;
  output_dir := ".";
  resume := "";
  aspect_ratio_group_factor := 0;
  test_only := false;
  pretrained := false;
  world_size := 1;
  node_rank := 0;
  dist_url := "env://";
  local_gpus := [0]
|}.

(** [args.world_size = n]. *)
Definition set_world_size (n : Z) (a : Args) : Args :=
  mkArgs (data_path a) (dataset a) (model a) (device a) (batch_size a)
    (epochs a) (workers a) (lr a) (momentum a) (weight_decay a)
    (lr_step_size a) (lr_steps a) (lr_gamma a) (print_freq a)
    (output_dir a) (resume a) (aspect_ratio_group_factor a) (test_only a)
    (pretrained a) n (node_rank a) (dist_url a) (local_gpus a).

(** [args.data_path = p]. *)
Definition set_data_path (p : string) (a : Args) : Args :=
  mkArgs p (dataset a) (model a) (device a) (batch_size a)
    (epochs a) (workers a) (lr a) (momentum a) (weight_decay a)
    (lr_step_size a) (lr_steps a) (lr_gamma a) (print_freq a)
    (output_dir a) (resume a) (aspect_ratio_group_factor a) (test_only a)
    (pretrained a) (world_size a) (node_rank a) (dist_url a) (local_gpus a).

(** [args.batch_size = n] (the [--batch-size] flag). *)
Definition set_batch_size (n : Z) (a : Args) : Args :=
  mkArgs (data_path a) (dataset a) (model a) (device a) n
    (epochs a) (workers a) (lr a) (momentum a) (weight_decay a)
    (lr_step_size a) (lr_steps a) (lr_gamma a) (print_freq a)
    (output_dir a) (resume a) (aspect_ratio_group_factor a) (test_only a)
    (pretrained a) (world_size a) (node_rank a) (dist_url a) (local_gpus a).

(** [args.test_only = b] (the [--test-only] flag). *)
Definition set_test_only (b : bool) (a : Args) : Args :=
  mkArgs (data_path a) (dataset a) (model a) (device a) (batch_size a)
    (epochs a) (workers a) (lr a) (momentum a) (weight_decay a)
    (lr_step_size a) (lr_steps a) (lr_gamma a) (print_freq a)
    (output_dir a) (resume a) (aspect_ratio_group_factor a) b
    (pretrained a) (world_size a) (node_rank a) (dist_url a) (local_gpus a).

(** [args.epochs = n] (the [--epochs] flag). *)
Definition set_epochs (n : Z) (a : Args) : Args :=
  mkArgs (data_path a) (dataset a) (model a) (device a) (batch_size a)
    n (workers a) (lr a) (momentum a) (weight_decay a)
    (lr_step_size a) (lr_steps a) (lr_gamma a) (print_freq a)
    (output_dir a) (resume a) (aspect_ratio_group_factor a) (test_only a)
    (pretrained a) (world_size a) (node_rank a) (dist_url a) (local_gpus a).

(** [args.output_dir = d] (the [--output-dir] flag). *)
Definition set_output_dir (d : string) (a : Args) : Args :=
  mkArgs (data_path a) (dataset a) (model a) (device a) (batch_size a)
    (epochs a) (workers a) (lr a) (momentum a) (weight_decay a)
    (lr_step_size a) (lr_steps a) (lr_gamma a) (print_freq a)
    d (resume a) (aspect_ratio_group_factor a) (test_only a)
    (pretrained a) (world_size a) (node_rank a) (dist_url a) (local_gpus a).

(** [args.node_rank = n] (the [--node-rank] flag). *)
Definition set_node_rank (n : Z) (a : Args) : Args :=
  mkArgs (data_path a) (dataset a) (model a) (device a) (batch_size a)
    (epochs a) (workers a) (lr a) (momentum a) (weight_decay a)
    (lr_step_size a) (lr_steps a) (lr_gamma a) (print_freq a)
    (output_dir a) (resume a) (aspect_ratio_group_factor a) (test_only a)
    (pretrained a) (world_size a) n (dist_url a) (local_gpus a).

(** [args.local_gpus = l] (the [--local-gpus] flag). *)
Definition set_local_gpus (l : list Z) (a : Args) : Args :=
  mkArgs (data_path a) (dataset a) (model a) (device a) (batch_size a)
    (epochs a) (workers a) (lr a) (momentum a) (weight_decay a)
    (lr_step_size a) (lr_steps a) (lr_gamma a) (print_freq a)
    (output_dir a) (resume a) (aspect_ratio_group_factor a) (test_only a)
    (pretrained a) (world_size a) (node_rank a) (dist_url a) l.

(* ================================================================== *)
(** ** Framework objects, as descriptions of the calls that build them *)

(** [T.ToTensor()], [T.RandomHorizontalFlip(p)]. *)
Inductive Transform : Type :=
| ToTensor
| RandomHorizontalFlip (p : float).

(** [T.Compose(transforms)]. *)
Inductive Compose : Type :=
| mkCompose (transforms : list Transform).

(** A bucket handle, [client.get_bucket(name)]. *)
Inductive Bucket : Type :=
| mkBucket (name : string).

(** The two dataset construction functions of [datasets.coco_utils]. *)
Inductive DsFn : Type := get_coco | get_coco_kp.

(** [ds_fn(data_path, image_set=..., transforms=..., gs_bucket=...)]. *)
Record Dataset : Type := mkDataset {
  ds_fn : DsFn;
  ds_root : string;
  ds_image_set : string;
  ds_transforms : Compose;
  ds_gs_bucket : option Bucket
}.

Inductive Sampler : Type :=
| DistributedSampler (d : Dataset)
| RandomSampler (d : Dataset)
| SequentialSampler (d : Dataset).

(** [create_aspect_ratio_groups(dataset, k=k)]. *)
Inductive GroupIds : Type :=
| mkGroupIds (d : Dataset) (k : Z).

Inductive BatchSamplerT : Type :=
| GroupedBatchSampler (s : Sampler) (group_ids : GroupIds) (bs : Z)
| BatchSampler (s : Sampler) (bs : Z) (drop_last : bool).

(** How a [DataLoader] forms batches: from [batch_sampler=], or from
    [batch_size=] and [sampler=]. *)
Inductive Batching : Type :=
| ByBatchSampler (b : BatchSamplerT)
| ByBatchSize (bs : Z) (s : Sampler).

(** [torch.utils.data.DataLoader(dataset, ..., num_workers=...,
    collate_fn=utils.collate_fn)]. *)
Record DataLoader : Type := mkDataLoader {
  dl_dataset : Dataset;
  dl_batching : Batching;
  dl_num_workers : Z
}.

(** The batch size a batch sampler was given. *)
Definition sampler_batch_size (b : BatchSamplerT) : Z :=
  match b with
  | GroupedBatchSampler _ _ bs => bs
  | BatchSampler _ bs _ => bs
  end.

(** The batch size of a loader. *)
Definition loader_batch_size (l : DataLoader) : Z :=
  match dl_batching l with
  | ByBatchSampler b => sampler_batch_size b
  | ByBatchSize bs _ => bs
  end.

(** The distributed context [utils.init_distributed_mode] establishes:
    whether the run is distributed, and this process's rank. *)
Record DistCtx : Type := mkDistCtx {
  distributed : bool;
  rank : Z
}.

(** A value stored in a checkpoint: a [state_dict()] taken in the given
    epoch, or the argument namespace. *)
Inductive Value : Type :=
| ModelStateDict (epoch : Z)
| OptimizerStateDict (epoch : Z)
| SchedulerStateDict (epoch : Z)
| ArgsValue (a : Args) (c : DistCtx).

(** A checkpoint: the dict literal's keys with their values, in order. *)
Definition Checkpoint : Type := list (string * Value).

Definition keys (c : Checkpoint) : list string := map fst c.

(* ================================================================== *)
(** ** Events, outcomes and the monad of the program *)

Inductive event : Type :=
| Print (line : string)
| Mkdir (dir : string)
| InitDistributedMode (local_rank : Z)
| FilterWarnings
| StorageClient
| GetBucket (name : string)
| DatasetCall (d : Dataset)
| CreateAspectRatioGroups (d : Dataset) (k : Z)
| CreateModel (name : string) (num_classes : Z) (pre : bool)
| ModelTo (dev : string)
| WrapDDP (local_rank : Z)
| CreateSGD (lr_ momentum_ weight_decay_ : float)
| CreateMultiStepLR (milestones : list Z) (gamma : float)
| TorchLoad (file : string)
| LoadStateDict (key : string)
| SetEpoch (epoch : Z)
| TrainOneEpoch (dl : DataLoader) (epoch : Z) (print_freq_ : Z)
| SchedulerStep
| TorchSave (ck : Checkpoint) (file : string)
| Evaluate (dl : DataLoader)
| MultiprocessingSpawn (nprocs : Z) (a : Args).

Inductive exn : Type :=
| ValueError (msg : string)
| IndexError (msg : string).

(** How a computation ends: with a value, by [exit()] (the process ends
    with the given status, no traceback), or by an exception. *)
Inductive result (A : Type) : Type :=
| Ok (a : A)
| Exited (status : Z)
| Raised (e : exn).

Arguments Ok {A} a.
Arguments Exited {A} status.
Arguments Raised {A} e.

(** A computation: the events it performed, and how it ended. *)
Definition M (A : Type) : Type := (list event * result A)%type.

Definition ret {A : Type} (a : A) : M A := ([], Ok a).

Definition bind {A B : Type} (m : M A) (f : A -> M B) : M B :=
  match m with
  | (t, Ok a) => let (t', r) := f a in ((t ++ t')%list, r)
  | (t, Exited s) => (t, Exited s)
  | (t, Raised e) => (t, Raised e)
  end.

Definition emit (e : event) : M unit := ([e], Ok tt).
Definition print (line : string) : M unit := emit (Print line).
Definition raise {A : Type} (e : exn) : M A := ([], Raised e).

(** [exit()]: [SystemExit(None)], status 0. *)
Definition py_exit {A : Type} : M A := ([], Exited 0).

Definition trace {A : Type} (m : M A) : list event := fst m.
Definition outcome {A : Type} (m : M A) : result A := snd m.

(** The status the process ends with. *)
Definition exit_status {A : Type} (r : result A) : Z :=
  match r with
  | Ok _ => 0
  | Exited s => s
  | Raised _ => 1
  end.

Declare Scope py_scope.
Delimit Scope py_scope with py.
Notation "x <- c1 ;; c2" := (bind c1 (fun x => c2))
  (at level 61, c1 at next level, right associativity) : py_scope.
Notation "' pat <- c1 ;; c2" := (bind c1 (fun x => let 'pat := x in c2))
  (at level 61, pat pattern, c1 at next level, right associativity) : py_scope.
Notation "c1 ;; c2" := (bind c1 (fun _ => c2))
  (at level 61, right associativity) : py_scope.
Local Open Scope py_scope.

(** [if cond: body]. *)
Definition when (b : bool) (body : M unit) : M unit :=
  if b then body else ret tt.

(** [for x in l: body]. *)
Fixpoint for_each {A : Type} (l : list A) (body : A -> M unit) : M unit :=
  match l with
  | [] => ret tt
  | x :: r => body x ;; for_each r body
  end.

(** [range(n)]. *)
Definition range (n : Z) : list Z := map Z.of_nat (seq 0 (Z.to_nat n)).

(* ================================================================== *)
(** ** The surroundings *)

(** A CUDA device: its name and [total_memory] in bytes (a C [size_t]:
    non-negative, below [2**64]). *)
Record CudaDevice : Type := mkCudaDevice {
  device_name : string;
  total_memory : Z
}.

Record Env : Type := mkEnv {
  (** [urllib.parse.urlparse]; [None] when it raises [ValueError]. *)
  urlparse : string -> option ParseResult;
  (** What [utils.init_distributed_mode(local_rank, args)] establishes. *)
  init_distributed_mode : Z -> Args -> DistCtx;
  (** The devices [torch.cuda] reports, by index. *)
  cuda_devices : list CudaDevice;
  (** [str(datetime.timedelta(seconds=int(total_time)))]. *)
  total_time_str : string
}.

(* ================================================================== *)
(** ** The program *)

(** [get_dataset(name, image_set, transform, data_path, gs_bucket)]. *)
Definition get_dataset (name image_set : string) (transform : Compose)
    (data_path_ : string) (gs_bucket : option Bucket) : M (Dataset * Z) :=
  '(fn, num_classes) <-
    (if String.eqb name "coco" then ret (get_coco, 91)
     else if String.eqb name "coco_kp" then ret (get_coco_kp, 2)
     else print "Dataset must be 'coco' or 'coco_kp'" ;; py_exit) ;;
  let ds := mkDataset fn data_path_ image_set transform gs_bucket in
  emit (DatasetCall ds) ;;
  ret (ds, num_classes).

(** [get_transform(train)]. *)
Definition get_transform (train : bool) : Compose :=
  let transforms := [ToTensor] in
  let transforms :=
    if train then (transforms ++ [RandomHorizontalFlip 0.5%float])%list
    else transforms in
  mkCompose transforms.

(** One line of [print_cuda_devices_info] for device [i]. *)
Definition device_line (local_gpus_ : list Z) (i : Z) (d : CudaDevice)
  : string :=
  "  " ++ Py.str_of_int i ++ ": " ++ device_name d ++ " ("
  ++ Py.str_of_int (Py.round_true_div_pow2 (total_memory d) 20) ++ "MB) "
  ++ (if Py.mem i local_gpus_ then "- Selected" else "").

(** [print_cuda_devices_info(local_gpus)]. *)
Definition print_cuda_devices_info (env : Env) (local_gpus_ : list Z)
  : M unit :=
  let num_cuda_devices := Py.len (cuda_devices env) in
  if negb (num_cuda_devices =? 0) then
    print "CUDA GPUs found in this machine:" ;;
    for_each (combine (range num_cuda_devices) (cuda_devices env))
      (fun '(i, d) => print (device_line local_gpus_ i d))
  else
    print "No CUDA GPUs found in this machine.".

(** Modelled from the spec: [utils.save_on_master], which is not among
    the source files.  The spec has the checkpoint "written only by the
    rank-zero process", the rank being part of the distributed context
    established at process start. *)
Definition save_on_master (ctx : DistCtx) (ck : Checkpoint) (file : string)
  : M unit :=
  when (rank ctx =? 0) (emit (TorchSave ck file)).

(** The dict literal saved at the end of an epoch. *)
Definition checkpoint_dict (args : Args) (ctx : DistCtx) (epoch : Z)
  : Checkpoint :=
  [ ("model", ModelStateDict epoch);
    ("optimizer", OptimizerStateDict epoch);
    ("lr_scheduler", SchedulerStateDict epoch);
    ("args", ArgsValue args ctx) ].

(** ['model_{}.pth'.format(epoch)] under [args.output_dir]. *)
Definition checkpoint_file (args : Args) (epoch : Z) : string :=
  Py.path_join (output_dir args) ("model_" ++ Py.str_of_int epoch ++ ".pth").

(** The samplers of [main_worker]: train, then test. *)
Definition make_samplers (ctx : DistCtx) (ds ds_test : Dataset)
  : Sampler * Sampler :=
  if distributed ctx
  then (DistributedSampler ds, DistributedSampler ds_test)
  else (RandomSampler ds, SequentialSampler ds_test).

(** The body of the epoch loop of [main_worker]. *)
Definition epoch_body (args : Args) (ctx : DistCtx)
    (data_loader data_loader_test : DataLoader) (epoch : Z) : M unit :=
  when (distributed ctx) (emit (SetEpoch epoch)) ;;
  emit (TrainOneEpoch data_loader epoch (print_freq args)) ;;
  emit SchedulerStep ;;
  when (Py.truthy (output_dir args))
    (save_on_master ctx (checkpoint_dict args ctx epoch)
       (checkpoint_file args epoch)) ;;
  emit (Evaluate data_loader_test).

(** [main_worker(local_rank, args)]. *)
Definition main_worker (env : Env) (local_rank : Z) (args : Args) : M unit :=
  emit (InitDistributedMode local_rank) ;;
  let ctx := init_distributed_mode env local_rank args in
  url_path <-
    match urlparse env (data_path args) with
    | Some u => ret u
    | None => raise (ValueError "Invalid IPv6 URL")
    end ;;
  '(args, gs_bucket) <-
    (if String.eqb (scheme url_path) "gs" then
       emit FilterWarnings ;;
       emit StorageClient ;;
       let args := set_data_path (Py.slice_from 1 (path url_path)) args in
       let bucket_name := netloc url_path in
       emit (GetBucket bucket_name) ;;
       print ("Streaming datasets from Google Cloud Storage bucket named '"
              ++ bucket_name ++ "'") ;;
       ret (args, Some (mkBucket bucket_name))
     else ret (args, None)) ;;
  '(ds, num_classes) <-
    get_dataset (dataset args) "train" (get_transform true)
      (data_path args) gs_bucket ;;
  '(ds_test, _) <-
    get_dataset (dataset args) "val" (get_transform false)
      (data_path args) gs_bucket ;;
  let '(train_sampler, test_sampler) := make_samplers ctx ds ds_test in
  train_batch_sampler <-
    (if 0 <=? aspect_ratio_group_factor args then
       emit (CreateAspectRatioGroups ds (aspect_ratio_group_factor args)) ;;
       ret (GroupedBatchSampler train_sampler
              (mkGroupIds ds (aspect_ratio_group_factor args))
              (batch_size args))
     else ret (BatchSampler train_sampler (batch_size args) true)) ;;
  let data_loader :=
    mkDataLoader ds (ByBatchSampler train_batch_sampler) (workers args) in
  let data_loader_test :=
    mkDataLoader ds_test (ByBatchSize 1 test_sampler) (workers args) in
  print "Creating model" ;;
  emit (CreateModel (model args) num_classes (pretrained args)) ;;
  emit (ModelTo (device args)) ;;
  when (distributed ctx) (emit (WrapDDP local_rank)) ;;
  emit (CreateSGD (lr args) (momentum args) (weight_decay args)) ;;
  emit (CreateMultiStepLR (lr_steps args) (lr_gamma args)) ;;
  when (Py.truthy (resume args))
    (emit (TorchLoad (resume args)) ;;
     emit (LoadStateDict "model") ;;
     emit (LoadStateDict "optimizer") ;;
     emit (LoadStateDict "lr_scheduler")) ;;
  if test_only args then
    emit (Evaluate data_loader_test)
  else
    print "Start training" ;;
    for_each (range (epochs args))
      (epoch_body args ctx data_loader data_loader_test) ;;
    print ("Training time " ++ total_time_str env).

(** The message of the world-size check: two adjacent literals. *)
Definition world_size_message : string :=
  "--world-size should be equal or larger than"
  ++ "the number of gpus selected in --local-gpus".

(** The adjustment of [args.world_size] before the check. *)
Definition effective_world_size (args : Args) : Z :=
  if (world_size args =? 1) && (1 <? Py.len (local_gpus args))
  then Py.len (local_gpus args)
  else world_size args.

(** The block under [if __name__ == "__main__"], after
    [parser.parse_args()]. *)
Definition main (env : Env) (args : Args) : M unit :=
  when (Py.truthy (output_dir args)) (emit (Mkdir (output_dir args))) ;;
  let args :=
    if (world_size args =? 1) && (1 <? Py.len (local_gpus args))
    then set_world_size (Py.len (local_gpus args)) args
    else args in
  when (negb (world_size args =? 1)
        && (world_size args <? Py.len (local_gpus args)))
    (print world_size_message ;; py_exit) ;;
  print_cuda_devices_info env (local_gpus args) ;;
  if negb (node_rank args =? 0) || (1 <? Py.len (local_gpus args)) then
    emit (MultiprocessingSpawn (Py.len (local_gpus args)) args)
  else
    match local_gpus args with
    | g :: _ => main_worker env g args
    | [] => raise (IndexError "list index out of range")
    end.

(** [torch.multiprocessing.spawn(main_worker, nprocs=n, args=(args,))]:
    process [i] of [range(n)] runs [main_worker(i, args)]. *)
Definition spawned_workers (env : Env) (nprocs : Z) (args : Args)
  : list (M unit) :=
  map (fun i => main_worker env i args) (range nprocs).

(** The surroundings used to run the program on concrete inputs: the
    model of [urlparse], a single non-distributed process of rank 0, one
    device, a clock reading. *)
Definition python_env : Env := {|
  urlparse := Urllib.urlparse;
  init_distributed_mode := fun _ _ => mkDistCtx false 0;
  cuda_devices := [mkCudaDevice "Tesla V100-SXM2-16GB" 16914055168];
  total_time_str := "0:00:07"
|}.

(* ================================================================== *)
(** ** Reading a trace *)

Definition is_dataset_call (e : event) : bool :=
  match e with DatasetCall _ => true | _ => false end.
Definition is_train (e : event) : bool :=
  match e with TrainOneEpoch _ _ _ => true | _ => false end.
Definition is_step (e : event) : bool :=
  match e with SchedulerStep => true | _ => false end.
Definition is_save (e : event) : bool :=
  match e with TorchSave _ _ => true | _ => false end.
Definition is_evaluate (e : event) : bool :=
  match e with Evaluate _ => true | _ => false end.
Definition is_spawn (e : event) : bool :=
  match e with MultiprocessingSpawn _ _ => true | _ => false end.
Definition is_worker_start (e : event) : bool :=
  match e with InitDistributedMode _ => true | _ => false end.

(** How many events of a kind a trace holds. *)
Definition count (p : event -> bool) (t : list event) : nat :=
  List.length (filter p t).

(** The events of the epoch loop and of evaluation. *)
Definition is_run_event (e : event) : bool :=
  match e with
  | SetEpoch _ | TrainOneEpoch _ _ _ | SchedulerStep
  | TorchSave _ _ | Evaluate _ => true
  | _ => false
  end.

(** The data paths handed to the dataset construction functions, in
    call order. *)
Definition dataset_roots (t : list event) : list string :=
  flat_map (fun e => match e with DatasetCall d => [ds_root d] | _ => [] end) t.

(** In the spec's words, "strip the leading path separator": a path
    that starts with ["/"] loses it, any other path is unchanged. *)
Definition strip_leading_separator (p : string) : string :=
  if Py.startswith p "/" then Py.slice_from 1 p else p.

(** The kinds of the events of a turn of the epoch loop, in order. *)
Inductive run_kind : Type := KSetEpoch | KTrain | KStep | KSave | KEvaluate.

Definition run_kinds (t : list event) : list run_kind :=
  flat_map (fun e => match e with
                     | SetEpoch _ => [KSetEpoch]
                     | TrainOneEpoch _ _ _ => [KTrain]
                     | SchedulerStep => [KStep]
                     | TorchSave _ _ => [KSave]
                     | Evaluate _ => [KEvaluate]
                     | _ => []
                     end) t.

(** A text is empty, or its first character satisfies [P]. *)
Definition first_char_is (P : ascii -> Prop) (s : string) : Prop :=
  match s with
  | EmptyString => True
  | String a _ => P a
  end.

(* ================================================================== *)
(** ** What [main_worker] builds, as functions of its inputs *)

(** [args] after the bucket detection: the data path replaced when the
    scheme is ["gs"]. *)
Definition worker_args (u : ParseResult) (args : Args) : Args :=
  if String.eqb (scheme u) "gs"
  then set_data_path (Py.slice_from 1 (path u)) args
  else args.

(** [gs_bucket] after the bucket detection. *)
Definition worker_bucket (u : ParseResult) : option Bucket :=
  if String.eqb (scheme u) "gs" then Some (mkBucket (netloc u)) else None.

(** The events of the bucket detection. *)
Definition bucket_events (u : ParseResult) : list event :=
  if String.eqb (scheme u) "gs" then
    [ FilterWarnings; StorageClient; GetBucket (netloc u);
      Print ("Streaming datasets from Google Cloud Storage bucket named '"
             ++ netloc u ++ "'") ]
  else [].

(** The dispatch of [get_dataset]: [None] for an unrecognised name. *)
Definition dataset_kind (name : string) : option (DsFn * Z) :=
  if String.eqb name "coco" then Some (get_coco, 91)
  else if String.eqb name "coco_kp" then Some (get_coco_kp, 2)
  else None.

(** The dataset [main_worker] asks for, for ["train"] or ["val"]. *)
Definition worker_dataset (fn : DsFn) (u : ParseResult) (args : Args)
    (train : bool) : Dataset :=
  mkDataset fn (data_path (worker_args u args))
    (if train then "train" else "val") (get_transform train)
    (worker_bucket u).

(** [data_loader]. *)
Definition train_loader (ctx : DistCtx) (fn : DsFn) (u : ParseResult)
    (args : Args) : DataLoader :=
  let ds := worker_dataset fn u args true in
  let ds_test := worker_dataset fn u args false in
  let train_sampler := fst (make_samplers ctx ds ds_test) in
  mkDataLoader ds
    (ByBatchSampler
       (if 0 <=? aspect_ratio_group_factor args
        then GroupedBatchSampler train_sampler
               (mkGroupIds ds (aspect_ratio_group_factor args))
               (batch_size args)
        else BatchSampler train_sampler (batch_size args) true))
    (workers args).

(** [data_loader_test]. *)
Definition test_loader (ctx : DistCtx) (fn : DsFn) (u : ParseResult)
    (args : Args) : DataLoader :=
  let ds := worker_dataset fn u args true in
  let ds_test := worker_dataset fn u args false in
  mkDataLoader ds_test (ByBatchSize 1 (snd (make_samplers ctx ds ds_test)))
    (workers args).

(** The events of [main_worker] up to the [test_only] test. *)
Definition setup_events (env : Env) (local_rank : Z) (args : Args)
    (u : ParseResult) (fn : DsFn) (num_classes : Z) : list event :=
  let ctx := init_distributed_mode env local_rank args in
  ([InitDistributedMode local_rank]
   ++ bucket_events u
   ++ [ DatasetCall (worker_dataset fn u args true);
        DatasetCall (worker_dataset fn u args false) ]
   ++ (if 0 <=? aspect_ratio_group_factor args
       then [CreateAspectRatioGroups (worker_dataset fn u args true)
               (aspect_ratio_group_factor args)]
       else [])
   ++ [ Print "Creating model";
        CreateModel (model args) num_classes (pretrained args);
        ModelTo (device args) ]
   ++ (if distributed ctx then [WrapDDP local_rank] else [])
   ++ [ CreateSGD (lr args) (momentum args) (weight_decay args);
        CreateMultiStepLR (lr_steps args) (lr_gamma args) ]
   ++ (if Py.truthy (resume args)
       then [ TorchLoad (resume args); LoadStateDict "model";
              LoadStateDict "optimizer"; LoadStateDict "lr_scheduler" ]
       else []))%list.

(** The events of one turn of the epoch loop. *)
Definition epoch_events (args : Args) (ctx : DistCtx)
    (dl dl_test : DataLoader) (epoch : Z) : list event :=
  ((if distributed ctx then [SetEpoch epoch] else [])
   ++ [TrainOneEpoch dl epoch (print_freq args); SchedulerStep]
   ++ (if Py.truthy (output_dir args) && (rank ctx =? 0)
       then [TorchSave (checkpoint_dict args ctx epoch)
               (checkpoint_file args epoch)]
       else [])
   ++ [Evaluate dl_test])%list.

(** The events of the epoch loop, with its two prints. *)
Definition training_events (env : Env) (args : Args) (ctx : DistCtx)
    (dl dl_test : DataLoader) : list event :=
  (Print "Start training"
   :: flat_map (epoch_events args ctx dl dl_test) (range (epochs args))
   ++ [Print ("Training time " ++ total_time_str env)])%list.

(** The events before the launch: the output directory. *)
Definition mkdir_events (args : Args) : list event :=
  if Py.truthy (output_dir args) then [Mkdir (output_dir args)] else [].

(** The lines of [print_cuda_devices_info]. *)
Definition cuda_info_events (env : Env) (gpus : list Z) : list event :=
  trace (print_cuda_devices_info env gpus).

(* ================================================================== *)
(** ** More readings of a trace *)

(** [args.resume = p] (the [--resume] flag). *)
Definition set_resume (p : string) (a : Args) : Args :=
  mkArgs (data_path a) (dataset a) (model a) (device a) (batch_size a)
    (epochs a) (workers a) (lr a) (momentum a) (weight_decay a)
    (lr_step_size a) (lr_steps a) (lr_gamma a) (print_freq a)
    (output_dir a) p (aspect_ratio_group_factor a) (test_only a)
    (pretrained a) (world_size a) (node_rank a) (dist_url a) (local_gpus a).

(** [args.dataset = n] (the [--dataset] flag). *)
Definition set_dataset (n : string) (a : Args) : Args :=
  mkArgs (data_path a) n (model a) (device a) (batch_size a)
    (epochs a) (workers a) (lr a) (momentum a) (weight_decay a)
    (lr_step_size a) (lr_steps a) (lr_gamma a) (print_freq a)
    (output_dir a) (resume a) (aspect_ratio_group_factor a) (test_only a)
    (pretrained a) (world_size a) (node_rank a) (dist_url a) (local_gpus a).

Definition is_mkdir (e : event) : bool :=
  match e with Mkdir _ => true | _ => false end.

(** The datasets asked of the construction functions, in call order. *)
Definition dataset_calls (t : list event) : list Dataset :=
  flat_map (fun e => match e with DatasetCall d => [d] | _ => [] end) t.

(** The models created: name, class count, pretrained flag. *)
Definition model_creations (t : list event) : list (string * Z * bool) :=
  flat_map (fun e => match e with
                     | CreateModel name n pre => [(name, n, pre)]
                     | _ => []
                     end) t.

(** The bucket names asked of the storage client, in order. *)
Definition bucket_requests (t : list event) : list string :=
  flat_map (fun e => match e with GetBucket name => [name] | _ => [] end) t.

(** [args.lr_step_size = n] (the [--lr-step-size] flag). *)
Definition set_lr_step_size (n : Z) (a : Args) : Args :=
  mkArgs (data_path a) (dataset a) (model a) (device a) (batch_size a)
    (epochs a) (workers a) (lr a) (momentum a) (weight_decay a)
    n (lr_steps a) (lr_gamma a) (print_freq a)
    (output_dir a) (resume a) (aspect_ratio_group_factor a) (test_only a)
    (pretrained a) (world_size a) (node_rank a) (dist_url a) (local_gpus a).

(** The optimizers created: learning rate, momentum, weight decay. *)
Definition optimizer_creations (t : list event)
  : list (float * float * float) :=
  flat_map (fun e => match e with
                     | CreateSGD l m w => [(l, m, w)]
                     | _ => []
                     end) t.

(** The schedulers created: milestones and decay factor. *)
Definition scheduler_creations (t : list event) : list (list Z * float) :=
  flat_map (fun e => match e with
                     | CreateMultiStepLR ms g => [(ms, g)]
                     | _ => []
                     end) t.

(** The loaders handed to [evaluate], in call order. *)
Definition evaluated_loaders (t : list event) : list DataLoader :=
  flat_map (fun e => match e with Evaluate dl => [dl] | _ => [] end) t.

(** The loaders handed to [train_one_epoch], in call order. *)
Definition trained_loaders (t : list event) : list DataLoader :=
  flat_map (fun e => match e with TrainOneEpoch dl _ _ => [dl] | _ => [] end)
    t.

(** The files read by [torch.load], in order. *)
Definition torch_loads (t : list event) : list string :=
  flat_map (fun e => match e with TorchLoad f => [f] | _ => [] end) t.

(** The checkpoint keys handed to [load_state_dict], in order. *)
Definition loaded_keys (t : list event) : list string :=
  flat_map (fun e => match e with LoadStateDict k => [k] | _ => [] end) t.

(** The files written by [torch.save], in order. *)
Definition saved_files (t : list event) : list string :=
  flat_map (fun e => match e with TorchSave _ f => [f] | _ => [] end) t.

(** The epochs announced to the train sampler, in order. *)
Definition set_epoch_calls (t : list event) : list Z :=
  flat_map (fun e => match e with SetEpoch k => [k] | _ => [] end) t.

(** [ck[key]] on a checkpoint; [None] is [KeyError]. *)
Fixpoint lookup (key : string) (ck : Checkpoint) : option Value :=
  match ck with
  | [] => None
  | (k, v) :: rest => if String.eqb k key then Some v else lookup key rest
  end.

(* ================================================================== *)
(** ** Tactics *)

(** Splits a membership in an explicit trace into its cases. *)
Ltac in_cases :=
  repeat match goal with
    | H : In _ (_ ++ _)%list |- _ => apply in_app_or in H; destruct H as [H | H]
    | H : In _ (_ :: _) |- _ => destruct H as [H | H]; [subst |]
    | H : In _ [] |- _ => destruct H
    | H : In _ (if ?b then _ else _) |- _ => destruct b eqn:?
    | H : In _ (flat_map _ _) |- _ =>
        apply in_flat_map in H; destruct H as (? & ? & H)
    end.

(** One step of symbolic execution of a worker. *)
Ltac worker_step :=
  cbn -[epoch_body epoch_events for_each flat_map range get_transform
        Py.slice_from String.append String.eqb Z.leb Py.truthy].

(* ================================================================== *)
(** ** The shape of a run *)

Lemma set_data_path_fields (p : string) (a : Args) :
  dataset (set_data_path p a) = dataset a
  /\ output_dir (set_data_path p a) = output_dir a
  /\ epochs (set_data_path p a) = epochs a
  /\ test_only (set_data_path p a) = test_only a
  /\ batch_size (set_data_path p a) = batch_size a
  /\ print_freq (set_data_path p a) = print_freq a.
Proof. repeat split. Qed.

Lemma worker_args_fields (u : ParseResult) (a : Args) :
  dataset (worker_args u a) = dataset a
  /\ output_dir (worker_args u a) = output_dir a
  /\ epochs (worker_args u a) = epochs a
  /\ test_only (worker_args u a) = test_only a
  /\ batch_size (worker_args u a) = batch_size a
  /\ print_freq (worker_args u a) = print_freq a.
Proof.
  unfold worker_args. destruct (String.eqb (scheme u) "gs").
  - apply set_data_path_fields.
  - repeat split.
Qed.

Lemma epoch_body_events (args : Args) (ctx : DistCtx)
    (dl dl_test : DataLoader) (epoch : Z) :
  epoch_body args ctx dl dl_test epoch
  = (epoch_events args ctx dl dl_test epoch, Ok tt).
Proof.
  unfold epoch_body, epoch_events, save_on_master, when.
  destruct (distributed ctx), (Py.truthy (output_dir args)),
    (rank ctx =? 0); reflexivity.
Qed.

Lemma for_each_events {A : Type} (body : A -> M unit)
    (ev : A -> list event) (l : list A) :
  (forall x, body x = (ev x, Ok tt)) ->
  for_each l body = (flat_map ev l, Ok tt).
Proof.
  intros Hbody. induction l as [| x r IH]; simpl.
  - reflexivity.
  - rewrite Hbody, IH. reflexivity.
Qed.

Lemma epoch_loop_events (args : Args) (ctx : DistCtx)
    (dl dl_test : DataLoader) (l : list Z) :
  for_each l (epoch_body args ctx dl dl_test)
  = (flat_map (epoch_events args ctx dl dl_test) l, Ok tt).
Proof. apply for_each_events. intros x. apply epoch_body_events. Qed.

Lemma dataset_kind_cases (name : string) (fn : DsFn) (n : Z) :
  dataset_kind name = Some (fn, n) ->
  (String.eqb name "coco" = true /\ fn = get_coco /\ n = 91)
  \/ (String.eqb name "coco" = false /\ String.eqb name "coco_kp" = true
      /\ fn = get_coco_kp /\ n = 2).
Proof.
  unfold dataset_kind.
  destruct (String.eqb name "coco"); [| destruct (String.eqb name "coco_kp")];
    intros H; inversion H; subst; auto.
Qed.

(** A worker whose URL parses and whose dataset name is recognised runs
    the setup, then evaluates once or trains, and returns. *)
Lemma main_worker_runs (env : Env) (local_rank : Z) (args : Args)
    (u : ParseResult) (fn : DsFn) (n : Z) :
  urlparse env (data_path args) = Some u ->
  dataset_kind (dataset args) = Some (fn, n) ->
  let ctx := init_distributed_mode env local_rank args in
  let dl := train_loader ctx fn u args in
  let dl_test := test_loader ctx fn u args in
  main_worker env local_rank args
  = ((setup_events env local_rank args u fn n
      ++ (if test_only args then [Evaluate dl_test]
          else training_events env (worker_args u args) ctx dl dl_test))%list,
     Ok tt).
Proof.
  intros Hu Hk ctx dl dl_test.
  unfold main_worker. rewrite Hu.
  destruct (dataset_kind_cases _ _ _ Hk) as [(Hc & -> & ->) | (Hc & Hc' & -> & ->)].
  all: subst dl dl_test ctx.
  all: unfold setup_events, training_events, train_loader, test_loader,
         worker_dataset, worker_args, worker_bucket, bucket_events,
         get_dataset, make_samplers.
  all: worker_step; destruct (String.eqb (scheme u) "gs").
  all: worker_step; cbn [dataset set_data_path]; rewrite ?Hc, ?Hc'.
  all: worker_step;
       destruct (distributed (init_distributed_mode env local_rank args)).
  all: worker_step; destruct (0 <=? aspect_ratio_group_factor args).
  all: worker_step; destruct (Py.truthy (resume args)).
  all: worker_step; destruct (test_only args).
  all: worker_step; try reflexivity.
  all: rewrite epoch_loop_events; worker_step; reflexivity.
Qed.

(** A worker whose URL does not parse raises before anything is built. *)
Lemma main_worker_bad_url (env : Env) (local_rank : Z) (args : Args) :
  urlparse env (data_path args) = None ->
  main_worker env local_rank args
  = ([InitDistributedMode local_rank], Raised (ValueError "Invalid IPv6 URL")).
Proof. intros Hu. unfold main_worker. rewrite Hu. reflexivity. Qed.

(** A worker whose dataset name is not recognised prints and exits
    after the bucket detection. *)
Lemma main_worker_unknown_dataset (env : Env) (local_rank : Z) (args : Args)
    (u : ParseResult) :
  urlparse env (data_path args) = Some u ->
  dataset_kind (dataset args) = None ->
  main_worker env local_rank args
  = (([InitDistributedMode local_rank] ++ bucket_events u
      ++ [Print "Dataset must be 'coco' or 'coco_kp'"])%list, Exited 0).
Proof.
  intros Hu Hk. unfold main_worker. rewrite Hu.
  unfold dataset_kind in Hk.
  destruct (String.eqb (dataset args) "coco") eqn:Hc; [discriminate |].
  destruct (String.eqb (dataset args) "coco_kp") eqn:Hc'; [discriminate |].
  unfold bucket_events, get_dataset.
  worker_step; destruct (String.eqb (scheme u) "gs").
  all: worker_step; cbn [dataset set_data_path]; rewrite Hc, Hc'.
  all: reflexivity.
Qed.

Lemma print_cuda_devices_info_returns (env : Env) (gpus : list Z) :
  print_cuda_devices_info env gpus = (cuda_info_events env gpus, Ok tt).
Proof.
  unfold cuda_info_events, print_cuda_devices_info.
  destruct (negb (Py.len (cuda_devices env) =? 0)); [| reflexivity].
  rewrite (for_each_events _
             (fun p => [Print (device_line gpus (fst p) (snd p))])).
  - reflexivity.
  - intros [i d]. reflexivity.
Qed.

Lemma cuda_info_events_are_prints (env : Env) (gpus : list Z) (e : event) :
  In e (cuda_info_events env gpus) -> exists line, e = Print line.
Proof.
  unfold cuda_info_events, print_cuda_devices_info.
  destruct (negb (Py.len (cuda_devices env) =? 0)).
  - rewrite (for_each_events _
               (fun p => [Print (device_line gpus (fst p) (snd p))]))
      by (intros [i d]; reflexivity).
    simpl. intros [<- | H]; [eauto |].
    apply in_flat_map in H. destruct H as (p & _ & [<- | []]). eauto.
  - simpl. intros [<- | []]. eauto.
Qed.

(** The launcher when the world-size check passes: the spawn, or the
    worker in this process. *)
Lemma main_launches (env : Env) (args : Args) :
  let args' := set_world_size (effective_world_size args) args in
  (negb (effective_world_size args =? 1)
   && (effective_world_size args <? Py.len (local_gpus args))) = false ->
  main env args
  = bind (mkdir_events args ++ cuda_info_events env (local_gpus args), Ok tt)%list
      (fun _ =>
         if negb (node_rank args =? 0) || (1 <? Py.len (local_gpus args))
         then emit (MultiprocessingSpawn (Py.len (local_gpus args)) args')
         else match local_gpus args with
              | g :: _ => main_worker env g args'
              | [] => raise (IndexError "list index out of range")
              end).
Proof.
  intros args'. subst args'. unfold main, effective_world_size, mkdir_events.
  destruct ((world_size args =? 1) && (1 <? Py.len (local_gpus args))) eqn:Hd.
  - cbn [world_size local_gpus node_rank set_world_size].
    intros ->. unfold when at 2.
    rewrite print_cuda_devices_info_returns.
    set (K := if negb (node_rank args =? 0) || _ then _ else _).
    destruct K as [t r], (Py.truthy (output_dir args)); reflexivity.
  - intros ->. unfold when at 2.
    rewrite print_cuda_devices_info_returns.
    replace (set_world_size (world_size args) args) with args
      by (destruct args; reflexivity).
    set (K := if negb (node_rank args =? 0) || _ then _ else _).
    destruct K as [t r], (Py.truthy (output_dir args)); reflexivity.
Qed.

(* ================================================================== *)
(** ** Dataset dispatch *)

(** C1: [get_dataset] resolves the name ["coco"] to 91 classes and the
    name ["coco_kp"] to 2 classes; for every other name it prints its
    message and the process exits, and no exception is raised. *)
Theorem get_dataset_dispatch (name image_set : string) (transform : Compose)
    (root : string) (gs_bucket : option Bucket) :
  let run := get_dataset name image_set transform root gs_bucket in
  (name = "coco" ->
   run = ([DatasetCall (mkDataset get_coco root image_set transform gs_bucket)],
          Ok (mkDataset get_coco root image_set transform gs_bucket, 91)))
  /\ (name = "coco_kp" ->
      run = ([DatasetCall
                (mkDataset get_coco_kp root image_set transform gs_bucket)],
             Ok (mkDataset get_coco_kp root image_set transform gs_bucket, 2)))
  /\ (name <> "coco" -> name <> "coco_kp" ->
      run = ([Print "Dataset must be 'coco' or 'coco_kp'"], Exited 0))
  /\ (forall e, outcome run <> Raised e).
Proof.
  intros run. subst run. unfold get_dataset.
  destruct (String.eqb_spec name "coco") as [-> | Hc].
  - repeat split; try reflexivity; try congruence; discriminate.
  - destruct (String.eqb_spec name "coco_kp") as [-> | Hk].
    + repeat split; try reflexivity; try congruence; discriminate.
    + repeat split; try reflexivity; try congruence; discriminate.
Qed.

Lemma get_dataset_dispatch_witness :
  get_dataset "voc" "train" (get_transform true) "/data" None
  = ([Print "Dataset must be 'coco' or 'coco_kp'"], Exited 0).
Proof.
  apply (get_dataset_dispatch "voc" "train" (get_transform true) "/data" None);
    discriminate.
Defined.

(* ================================================================== *)
(** ** The launcher *)

(** C2: when the world size has its default value 1 and more than one
    local GPU is listed, the world size of the run is the number of
    listed GPUs: the check passes and the workers are spawned with
    [args.world_size] set to it. *)
Theorem world_size_defaults_to_gpu_count (env : Env) (args : Args) :
  world_size args = 1 ->
  1 < Py.len (local_gpus args) ->
  let n := Py.len (local_gpus args) in
  effective_world_size args = n
  /\ world_size (set_world_size n args) = n
  /\ main env args
     = ((mkdir_events args ++ cuda_info_events env (local_gpus args)
         ++ [MultiprocessingSpawn n (set_world_size n args)])%list, Ok tt).
Proof.
  intros Hw Hn n. subst n.
  assert (He : effective_world_size args = Py.len (local_gpus args)).
  { unfold effective_world_size. rewrite Hw.
    apply Z.ltb_lt in Hn. rewrite Hn. reflexivity. }
  split; [exact He |]. split; [reflexivity |].
  rewrite main_launches.
  - rewrite He. apply Z.ltb_lt in Hn. rewrite Hn, orb_true_r.
    cbn. rewrite <- app_assoc. reflexivity.
  - rewrite He, Z.ltb_irrefl. apply andb_false_r.
Qed.

Lemma world_size_defaults_to_gpu_count_witness :
  effective_world_size (set_local_gpus [0; 1] default_args) = 2.
Proof.
  apply (world_size_defaults_to_gpu_count python_env
           (set_local_gpus [0; 1] default_args)).
  - reflexivity.
  - reflexivity.
Defined.

(** C3: when the world size is not 1 and is smaller than the number of
    listed local GPUs, the program prints its message and exits; no
    worker is spawned or started. *)
Theorem world_size_too_small_exits (env : Env) (args : Args) :
  world_size args <> 1 ->
  world_size args < Py.len (local_gpus args) ->
  main env args
  = ((mkdir_events args ++ [Print world_size_message])%list, Exited 0)
  /\ count is_spawn (trace (main env args)) = 0%nat
  /\ count is_worker_start (trace (main env args)) = 0%nat.
Proof.
  intros Hw Hn.
  assert (Hm : main env args
    = ((mkdir_events args ++ [Print world_size_message])%list, Exited 0)).
  { unfold main, mkdir_events.
    apply Z.eqb_neq in Hw. apply Z.ltb_lt in Hn.
    rewrite Hw. cbn [andb negb]. rewrite Hw, Hn. cbn [andb negb].
    destruct (Py.truthy (output_dir args)); reflexivity. }
  rewrite Hm. split; [reflexivity |].
  unfold mkdir_events. destruct (Py.truthy (output_dir args)); split; reflexivity.
Qed.

Lemma world_size_too_small_exits_witness :
  main python_env (set_world_size 2 (set_local_gpus [0; 1; 2] default_args))
  = ([Mkdir "."; Print world_size_message], Exited 0).
Proof.
  apply (world_size_too_small_exits python_env
           (set_world_size 2 (set_local_gpus [0; 1; 2] default_args))).
  - discriminate.
  - reflexivity.
Defined.

(* ================================================================== *)
(** ** Counting events *)

Lemma count_app (p : event -> bool) (a b : list event) :
  count p (a ++ b)%list = (count p a + count p b)%nat.
Proof. unfold count. rewrite filter_app, length_app. reflexivity. Qed.

Lemma count_none (p : event -> bool) (t : list event) :
  (forall e, In e t -> p e = false) -> count p t = 0%nat.
Proof.
  unfold count. induction t as [| e t IH]; intros H; simpl.
  - reflexivity.
  - rewrite (H e (or_introl eq_refl)). apply IH.
    intros e' He'. apply H. right. exact He'.
Qed.

Lemma setup_events_not_run (env : Env) (r : Z) (args : Args)
    (u : ParseResult) (fn : DsFn) (n : Z) (e : event) :
  In e (setup_events env r args u fn n) -> is_run_event e = false.
Proof.
  unfold setup_events, bucket_events. intros H. in_cases; reflexivity.
Qed.

Lemma epoch_events_are_run (args : Args) (ctx : DistCtx)
    (dl dl_test : DataLoader) (epoch : Z) (e : event) :
  In e (epoch_events args ctx dl dl_test epoch) ->
  is_run_event e = true.
Proof. unfold epoch_events. intros H. in_cases; reflexivity. Qed.

(** Whatever the inputs, a worker spawns nothing. *)
Lemma main_worker_spawns_nothing (env : Env) (r : Z) (args : Args) (e : event) :
  In e (trace (main_worker env r args)) -> is_spawn e = false.
Proof.
  destruct (urlparse env (data_path args)) as [u |] eqn:Hu.
  - destruct (dataset_kind (dataset args)) as [[fn n] |] eqn:Hk.
    + rewrite (main_worker_runs env r args u fn n Hu Hk).
      unfold trace, fst, training_events, setup_events, bucket_events.
      intros H. in_cases; try reflexivity.
      apply epoch_events_are_run in H. destruct e; try discriminate; reflexivity.
    + rewrite (main_worker_unknown_dataset env r args u Hu Hk).
      unfold trace, fst, bucket_events. intros H. in_cases; reflexivity.
  - rewrite (main_worker_bad_url env r args Hu).
    unfold trace, fst. intros H. in_cases; reflexivity.
Qed.

Lemma launch_prefix_events (env : Env) (args : Args) (e : event) :
  In e (mkdir_events args ++ cuda_info_events env (local_gpus args))%list ->
  is_spawn e = false /\ is_worker_start e = false.
Proof.
  intros H. apply in_app_or in H. destruct H as [H | H].
  - unfold mkdir_events in H. in_cases; split; reflexivity.
  - apply cuda_info_events_are_prints in H. destruct H as (line & ->).
    split; reflexivity.
Qed.

Lemma world_size_check_passes (args : Args) :
  world_size args = 1 \/ Py.len (local_gpus args) <= world_size args ->
  negb (effective_world_size args =? 1)
  && (effective_world_size args <? Py.len (local_gpus args)) = false.
Proof.
  unfold effective_world_size. intros H.
  destruct (Z.eqb_spec (world_size args) 1) as [E | E];
    destruct (Z.ltb_spec 1 (Py.len (local_gpus args))) as [L | L];
    cbn [andb].
  - rewrite Z.ltb_irrefl. apply andb_false_r.
  - rewrite E. reflexivity.
  - destruct H as [H | H]; [contradiction |].
    apply andb_false_iff. right. apply Z.ltb_ge. exact H.
  - destruct H as [H | H]; [contradiction |].
    apply andb_false_iff. right. apply Z.ltb_ge. exact H.
Qed.

(** The claim as written fails: on a node of rank 1 with the single
    GPU 3 listed, the launcher goes through the spawning utility and
    does not call [main_worker] itself. *)
Lemma single_gpu_on_later_node_spawns :
  let args :=
    set_node_rank 1 (set_world_size 2 (set_local_gpus [3] default_args)) in
  Py.len (local_gpus args) = 1
  /\ main python_env args
     = ([ Mkdir "."; Print "CUDA GPUs found in this machine:";
          Print "  0: Tesla V100-SXM2-16GB (16130MB) ";
          MultiprocessingSpawn 1 args ], Ok tt)
  /\ count is_worker_start (trace (main python_env args)) = 0%nat.
Proof. repeat split. Qed.

(** C7, amended: when the world-size check passes, the launcher spawns
    one worker per listed GPU through the spawning utility if more than
    one GPU is listed or the node rank is not 0; with node rank 0 and a
    single listed GPU it calls [main_worker] in its own process, on that
    GPU, and spawns nothing. *)
Theorem launch_selection (env : Env) (args : Args) :
  world_size args = 1 \/ Py.len (local_gpus args) <= world_size args ->
  local_gpus args <> [] ->
  let n := Py.len (local_gpus args) in
  let args' := set_world_size (effective_world_size args) args in
  let pre := (mkdir_events args ++ cuda_info_events env (local_gpus args))%list in
  (node_rank args <> 0 \/ 1 < n ->
   main env args = ((pre ++ [MultiprocessingSpawn n args'])%list, Ok tt)
   /\ List.length (spawned_workers env n args') = List.length (local_gpus args)
   /\ count is_worker_start (trace (main env args)) = 0%nat)
  /\ (node_rank args = 0 -> n <= 1 ->
      exists g,
        local_gpus args = [g]
        /\ main env args
           = ((pre ++ trace (main_worker env g args'))%list,
              outcome (main_worker env g args'))
        /\ count is_spawn (trace (main env args)) = 0%nat).
Proof.
  intros Hcheck Hne n args' pre.
  pose proof (main_launches env args (world_size_check_passes args Hcheck)) as Hm.
  cbv zeta in Hm. fold args' in Hm. fold n in Hm. fold pre in Hm.
  split.
  - intros Hspawn.
    assert (Hc : negb (node_rank args =? 0) || (1 <? n) = true).
    { destruct Hspawn as [H | H].
      - apply Z.eqb_neq in H. rewrite H. reflexivity.
      - apply Z.ltb_lt in H. rewrite H. apply orb_true_r. }
    rewrite Hc in Hm. cbn in Hm. rewrite Hm. split; [reflexivity |]. split.
    + unfold spawned_workers, range. rewrite !length_map, length_seq.
      subst n. unfold Py.len. apply Nat2Z.id.
    + unfold trace, fst. rewrite count_app.
      rewrite (count_none is_worker_start pre).
      * reflexivity.
      * intros e He. apply (launch_prefix_events env args e He).
  - intros Hr Hn.
    assert (Hc : negb (node_rank args =? 0) || (1 <? n) = false).
    { rewrite Hr. apply Z.ltb_ge. exact Hn. }
    rewrite Hc in Hm.
    destruct (local_gpus args) as [| g rest] eqn:Hg; [contradiction |].
    destruct rest as [| g' rest].
    + exists g. split; [reflexivity |].
      assert (Hmain : main env args
        = ((pre ++ trace (main_worker env g args'))%list,
           outcome (main_worker env g args'))).
      { rewrite Hm. destruct (main_worker env g args') as [t o]. reflexivity. }
      split; [exact Hmain |].
      rewrite Hmain. unfold trace at 1, fst. rewrite count_app.
      rewrite (count_none is_spawn pre), (count_none is_spawn (trace _)).
      * reflexivity.
      * intros e He. apply (main_worker_spawns_nothing env g args' e He).
      * intros e He. subst pre. rewrite <- Hg in He.
        apply (launch_prefix_events env args e He).
    + exfalso. subst n. unfold Py.len in Hn. cbn [List.length] in Hn. lia.
Qed.

Lemma launch_selection_witness :
  main python_env default_args
  = (([Mkdir "."; Print "CUDA GPUs found in this machine:";
       Print "  0: Tesla V100-SXM2-16GB (16130MB) - Selected"]
      ++ trace (main_worker python_env 0 default_args))%list,
     outcome (main_worker python_env 0 default_args)).
Proof.
  destruct (launch_selection python_env default_args) as [_ H].
  - left. reflexivity.
  - discriminate.
  - destruct H as (g & Hg & Hm & _).
    + reflexivity.
    + discriminate.
    + injection Hg as <-. exact Hm.
Defined.

(* ================================================================== *)
(** ** The test-only path and the loaders *)

Lemma not_run_event_kinds (e : event) :
  is_run_event e = false ->
  is_train e = false /\ is_step e = false /\ is_save e = false
  /\ is_evaluate e = false.
Proof. destruct e; intros H; try discriminate H; repeat split. Qed.

(** A worker that stops during the setup performs no event of the epoch
    loop and no evaluation. *)
Lemma main_worker_stopped_not_run (env : Env) (r : Z) (args : Args) (e : event) :
  urlparse env (data_path args) = None
  \/ (exists u, urlparse env (data_path args) = Some u
                /\ dataset_kind (dataset args) = None) ->
  In e (trace (main_worker env r args)) -> is_run_event e = false.
Proof.
  intros [Hu | (u & Hu & Hk)].
  - rewrite (main_worker_bad_url env r args Hu).
    unfold trace, fst. intros H. in_cases; reflexivity.
  - rewrite (main_worker_unknown_dataset env r args u Hu Hk).
    unfold trace, fst, bucket_events. intros H. in_cases; reflexivity.
Qed.

(** With [test_only] set, every event of a worker but its last
    evaluation belongs to the setup. *)
Lemma test_only_events (env : Env) (r : Z) (args : Args) (e : event) :
  test_only args = true ->
  In e (trace (main_worker env r args)) ->
  is_train e = false /\ is_step e = false /\ is_save e = false.
Proof.
  intros Ht H.
  destruct (urlparse env (data_path args)) as [u |] eqn:Hu.
  - destruct (dataset_kind (dataset args)) as [[fn n] |] eqn:Hk.
    + rewrite (main_worker_runs env r args u fn n Hu Hk), Ht in H.
      unfold trace, fst in H. apply in_app_or in H. destruct H as [H | H].
      * apply setup_events_not_run in H.
        destruct (not_run_event_kinds e H) as (? & ? & ? & _). auto.
      * in_cases. repeat split.
    + assert (Hn : is_run_event e = false).
      { apply (main_worker_stopped_not_run env r args e); [| exact H].
        right. exists u. auto. }
      destruct (not_run_event_kinds e Hn) as (? & ? & ? & _). auto.
  - assert (Hn : is_run_event e = false).
    { apply (main_worker_stopped_not_run env r args e); [| exact H].
      left. exact Hu. }
    destruct (not_run_event_kinds e Hn) as (? & ? & ? & _). auto.
Qed.

(** C8: with the test-only flag set, [main_worker] performs no training
    pass, no scheduler step and no checkpoint write; once its setup has
    passed it evaluates exactly once and returns, and the status the
    process ends with is the one of a training run. *)
Theorem test_only_evaluates_and_returns (env : Env) (r : Z) (args : Args) :
  test_only args = true ->
  let t := trace (main_worker env r args) in
  count is_train t = 0%nat
  /\ count is_step t = 0%nat
  /\ count is_save t = 0%nat
  /\ (forall u k,
        urlparse env (data_path args) = Some u ->
        dataset_kind (dataset args) = Some k ->
        count is_evaluate t = 1%nat
        /\ outcome (main_worker env r args) = Ok tt
        /\ exit_status (outcome (main_worker env r args))
           = exit_status
               (outcome (main_worker env r (set_test_only false args)))).
Proof.
  intros Ht t. subst t.
  split; [| split; [| split]].
  - apply count_none. intros e He. apply (test_only_events env r args e Ht He).
  - apply count_none. intros e He. apply (test_only_events env r args e Ht He).
  - apply count_none. intros e He. apply (test_only_events env r args e Ht He).
  - intros u [fn n] Hu Hk.
    rewrite (main_worker_runs env r args u fn n Hu Hk), Ht.
    rewrite (main_worker_runs env r (set_test_only false args) u fn n Hu Hk).
    unfold trace, outcome, fst, snd.
    split; [| split; reflexivity].
    rewrite count_app, (count_none is_evaluate (setup_events _ _ _ _ _ _)).
    + reflexivity.
    + intros e He. apply setup_events_not_run in He.
      apply (not_run_event_kinds e He).
Qed.

Lemma test_only_evaluates_and_returns_witness :
  let run := main_worker python_env 0 (set_test_only true default_args) in
  count is_train (trace run) = 0%nat
  /\ count is_evaluate (trace run) = 1%nat
  /\ outcome run = Ok tt.
Proof.
  intros run.
  destruct (test_only_evaluates_and_returns python_env 0
              (set_test_only true default_args) eq_refl)
    as (Htrain & _ & _ & Hrun).
  destruct (Hrun (mkParseResult "" "" "/datasets01/COCO/022719/" "" "" "")
              (get_coco, 91) eq_refl eq_refl) as (Heval & Hret & _).
  split; [exact Htrain | split; [exact Heval | exact Hret]].
Defined.

Lemma train_loader_batch_size (ctx : DistCtx) (fn : DsFn) (u : ParseResult)
    (args : Args) :
  loader_batch_size (train_loader ctx fn u args) = batch_size args.
Proof.
  unfold train_loader, loader_batch_size. cbn [dl_batching].
  destruct (0 <=? aspect_ratio_group_factor args); reflexivity.
Qed.

Lemma test_loader_ignores_batch_size (ctx : DistCtx) (fn : DsFn)
    (u : ParseResult) (args : Args) (b : Z) :
  test_loader ctx fn u (set_batch_size b args) = test_loader ctx fn u args.
Proof.
  unfold test_loader, worker_dataset, worker_args.
  destruct (String.eqb (scheme u) "gs"); reflexivity.
Qed.

Lemma setup_events_use_no_loader (env : Env) (r : Z) (args : Args)
    (u : ParseResult) (fn : DsFn) (n : Z) :
  evaluated_loaders (setup_events env r args u fn n) = []
  /\ trained_loaders (setup_events env r args u fn n) = [].
Proof.
  unfold setup_events, bucket_events.
  destruct (String.eqb (scheme u) "gs"),
    (0 <=? aspect_ratio_group_factor args),
    (distributed (init_distributed_mode env r args)),
    (Py.truthy (resume args)); split; reflexivity.
Qed.

Lemma epoch_loop_loaders (args : Args) (ctx : DistCtx)
    (dl dl_test : DataLoader) (l : list Z) :
  evaluated_loaders (flat_map (epoch_events args ctx dl dl_test) l)
  = repeat dl_test (List.length l)
  /\ trained_loaders (flat_map (epoch_events args ctx dl dl_test) l)
     = repeat dl (List.length l).
Proof.
  unfold evaluated_loaders, trained_loaders.
  induction l as [| epoch l [IHe IHt]]; simpl; [split; reflexivity |].
  rewrite !flat_map_app, IHe, IHt. unfold epoch_events.
  destruct (distributed ctx),
    (Py.truthy (output_dir args) && (rank ctx =? 0)); split; reflexivity.
Qed.

(** The loaders a worker that gets through its setup evaluates and
    trains on. *)
Lemma main_worker_loaders (env : Env) (r : Z) (args : Args)
    (u : ParseResult) (fn : DsFn) (n : Z) :
  urlparse env (data_path args) = Some u ->
  dataset_kind (dataset args) = Some (fn, n) ->
  let ctx := init_distributed_mode env r args in
  evaluated_loaders (trace (main_worker env r args))
  = repeat (test_loader ctx fn u args)
      (if test_only args then 1%nat else Z.to_nat (epochs args))
  /\ trained_loaders (trace (main_worker env r args))
     = repeat (train_loader ctx fn u args)
         (if test_only args then 0%nat else Z.to_nat (epochs args)).
Proof.
  intros Hu Hk ctx. subst ctx.
  destruct (worker_args_fields u args) as (_ & _ & Hep & _).
  rewrite (main_worker_runs env r args u fn n Hu Hk).
  unfold trace, fst, evaluated_loaders, trained_loaders.
  rewrite !flat_map_app.
  destruct (setup_events_use_no_loader env r args u fn n) as [He Ht].
  unfold evaluated_loaders, trained_loaders in He, Ht. rewrite He, Ht.
  cbn [app]. destruct (test_only args); [split; reflexivity |].
  unfold training_events. cbn [flat_map app]. rewrite !flat_map_app.
  cbn [flat_map]. rewrite !app_nil_r.
  destruct (epoch_loop_loaders (worker_args u args)
              (init_distributed_mode env r args)
              (train_loader (init_distributed_mode env r args) fn u args)
              (test_loader (init_distributed_mode env r args) fn u args)
              (range (epochs (worker_args u args)))) as [Le Lt].
  unfold evaluated_loaders, trained_loaders in Le, Lt.
  rewrite Le, Lt, Hep. unfold range. rewrite length_map, length_seq.
  split; reflexivity.
Qed.

(** C10: whatever the arguments, every loader [main_worker] evaluates
    on has batch size 1 and every loader it trains on batches by the
    configured batch size.  A worker that gets through its setup builds
    the evaluation loader over the validation dataset with
    [batch_size=1] and hands that loader to every [evaluate] call (one
    with [--test-only], one per epoch otherwise); it hands the training
    loader, whose batch sampler has the configured batch size, to every
    [train_one_epoch] call; and the loaders it evaluates on do not
    change with the [--batch-size] flag. *)
Theorem evaluation_loader_batch_size_is_one (env : Env) (r : Z) (args : Args) :
  let t := trace (main_worker env r args) in
  (forall dl, In (Evaluate dl) t -> loader_batch_size dl = 1)
  /\ (forall dl epoch pf,
        In (TrainOneEpoch dl epoch pf) t ->
        loader_batch_size dl = batch_size args)
  /\ (forall ctx fn u b,
        test_loader ctx fn u (set_batch_size b args)
        = test_loader ctx fn u args)
  /\ (forall u fn n,
        urlparse env (data_path args) = Some u ->
        dataset_kind (dataset args) = Some (fn, n) ->
        let ctx := init_distributed_mode env r args in
        let ds := worker_dataset fn u args true in
        let ds_test := worker_dataset fn u args false in
        let dl_test :=
          mkDataLoader ds_test
            (ByBatchSize 1 (snd (make_samplers ctx ds ds_test)))
            (workers args) in
        let dl := train_loader ctx fn u args in
        evaluated_loaders t
        = repeat dl_test
            (if test_only args then 1%nat else Z.to_nat (epochs args))
        /\ trained_loaders t
           = repeat dl
               (if test_only args then 0%nat else Z.to_nat (epochs args))
        /\ dl_dataset dl = ds
        /\ loader_batch_size dl = batch_size args
        /\ (forall b,
              init_distributed_mode env r (set_batch_size b args) = ctx ->
              evaluated_loaders
                (trace (main_worker env r (set_batch_size b args)))
              = evaluated_loaders t)).
Proof.
  intros t. subst t.
  split; [| split; [| split]].
  - intros dl H.
    destruct (urlparse env (data_path args)) as [u |] eqn:Hu.
    + destruct (dataset_kind (dataset args)) as [[fn n] |] eqn:Hk.
      * rewrite (main_worker_runs env r args u fn n Hu Hk) in H.
        unfold trace, fst in H. apply in_app_or in H. destruct H as [H | H].
        -- apply setup_events_not_run in H. discriminate H.
        -- unfold training_events, epoch_events in H.
           in_cases; try discriminate; injection H as <-; reflexivity.
      * apply (main_worker_stopped_not_run env r args) in H; [discriminate H |].
        right. exists u. auto.
    + apply (main_worker_stopped_not_run env r args) in H; [discriminate H |].
      left. exact Hu.
  - intros dl epoch pf H.
    destruct (urlparse env (data_path args)) as [u |] eqn:Hu.
    + destruct (dataset_kind (dataset args)) as [[fn n] |] eqn:Hk.
      * rewrite (main_worker_runs env r args u fn n Hu Hk) in H.
        unfold trace, fst in H. apply in_app_or in H. destruct H as [H | H].
        -- apply setup_events_not_run in H. discriminate H.
        -- unfold training_events, epoch_events in H.
           in_cases; try discriminate; injection H as <- _ _;
             apply train_loader_batch_size.
      * apply (main_worker_stopped_not_run env r args) in H; [discriminate H |].
        right. exists u. auto.
    + apply (main_worker_stopped_not_run env r args) in H; [discriminate H |].
      left. exact Hu.
  - intros ctx fn u b. apply test_loader_ignores_batch_size.
  - intros u fn n Hu Hk ctx ds ds_test dl_test dl.
    destruct (main_worker_loaders env r args u fn n Hu Hk) as [He Ht].
    split; [exact He |]. split; [exact Ht |]. split; [reflexivity |].
    split; [apply train_loader_batch_size |].
    intros b Hctx.
    destruct (main_worker_loaders env r (set_batch_size b args) u fn n Hu Hk)
      as [Hb _].
    rewrite Hb, He, Hctx, test_loader_ignores_batch_size. reflexivity.
Qed.

Lemma evaluation_loader_batch_size_is_one_witness :
  let t := trace (main_worker python_env 0
                    (set_batch_size 8 (set_epochs 2 default_args))) in
  map loader_batch_size (evaluated_loaders t) = [1; 1]
  /\ map loader_batch_size (trained_loaders t) = [8; 8].
Proof.
  intros t.
  destruct (evaluation_loader_batch_size_is_one python_env 0
              (set_batch_size 8 (set_epochs 2 default_args)))
    as (_ & _ & _ & H).
  destruct (H (mkParseResult "" "" "/datasets01/COCO/022719/" "" "" "")
              get_coco 91 eq_refl eq_refl) as (He & Ht & _).
  subst t. rewrite He, Ht. split; reflexivity.
Defined.

(* ================================================================== *)
(** ** The cloud-bucket detection *)

Lemma slice_strips_separator (p : string) :
  p = "" \/ Py.startswith p "/" = true ->
  Py.slice_from 1 p = strip_leading_separator p.
Proof.
  unfold strip_leading_separator.
  intros [-> | H]; [reflexivity |]. rewrite H. reflexivity.
Qed.

(** C4: for a ["gs"] data path the worker is to strip the leading path
    separator of the URL's object path, as the comment of line 81 says
    it does.  At the data path ["gs:foo"] it does otherwise: the URL
    has the scheme ["gs"], no bucket and the path ["foo"], which has no
    leading separator to strip, and line 81 drops the ['f'].  The
    worker then asks the storage client for the bucket [""] and hands
    ["oo"] to both dataset constructions. *)
Theorem bucketless_gs_url_loses_a_character :
  let args := set_data_path "gs:foo" default_args in
  let u := mkParseResult "gs" "" "foo" "" "" "" in
  let t := trace (main_worker python_env 0 args) in
  urlparse python_env (data_path args) = Some u
  /\ strip_leading_separator (path u) = "foo"
  /\ data_path (worker_args u args) = "oo"
  /\ bucket_requests t = [""]
  /\ dataset_roots t = ["oo"; "oo"].
Proof. repeat split. Qed.

(** X15: for a data path whose URL scheme is ["gs"] and whose URL
    path is empty or starts with the path separator, [main_worker]
    hands the dataset constructors the URL path without its leading
    separator, together with the handle of the bucket the URL names; for
    any other scheme it hands them the data path unchanged and no
    bucket, and neither creates a storage client nor asks for a bucket.
    With a recognised dataset name the constructor is called twice.
    This holds whatever the URL parser. *)
Theorem bucket_detection (env : Env) (r : Z) (args : Args) (u : ParseResult) :
  urlparse env (data_path args) = Some u ->
  let t := trace (main_worker env r args) in
  (scheme u = "gs" ->
   path u = "" \/ Py.startswith (path u) "/" = true ->
   forall d, In (DatasetCall d) t ->
     ds_root d = strip_leading_separator (path u)
     /\ ds_gs_bucket d = Some (mkBucket (netloc u)))
  /\ (scheme u <> "gs" ->
      (forall d, In (DatasetCall d) t ->
         ds_root d = data_path args /\ ds_gs_bucket d = None)
      /\ ~ In StorageClient t
      /\ (forall name, ~ In (GetBucket name) t))
  /\ (forall k, dataset_kind (dataset args) = Some k ->
      count is_dataset_call t = 2%nat).
Proof.
  intros Hu t. subst t.
  destruct (dataset_kind (dataset args)) as [[fn n] |] eqn:Hk.
  - rewrite (main_worker_runs env r args u fn n Hu Hk).
    unfold trace, fst.
    assert (Hrun : forall e,
      In e (if test_only args
            then [Evaluate (test_loader (init_distributed_mode env r args) fn u args)]
            else training_events env (worker_args u args)
                   (init_distributed_mode env r args)
                   (train_loader (init_distributed_mode env r args) fn u args)
                   (test_loader (init_distributed_mode env r args) fn u args)) ->
      is_dataset_call e = false /\ e <> StorageClient
      /\ (forall name, e <> GetBucket name)).
    { intros e H. unfold training_events, epoch_events in H.
      in_cases; repeat split; intros; discriminate. }
    split; [| split].
    + intros Hs Hp d H. apply in_app_or in H. destruct H as [H | H].
      * unfold setup_events, bucket_events, worker_dataset, worker_args,
          worker_bucket in H.
        rewrite Hs in H. cbn [String.eqb Ascii.eqb Bool.eqb] in H.
        in_cases; try discriminate; injection H as <-;
          cbn [ds_root ds_gs_bucket data_path set_data_path];
          (split; [apply slice_strips_separator; exact Hp | reflexivity]).
      * apply Hrun in H. destruct H as [H _]. discriminate H.
    + intros Hs. apply String.eqb_neq in Hs.
      split; [| split].
      * intros d H. apply in_app_or in H. destruct H as [H | H].
        -- unfold setup_events, bucket_events, worker_dataset, worker_args,
             worker_bucket in H.
           rewrite Hs in H.
           in_cases; try discriminate; injection H as <-; split; reflexivity.
        -- apply Hrun in H. destruct H as [H _]. discriminate H.
      * intros H. apply in_app_or in H. destruct H as [H | H].
        -- unfold setup_events, bucket_events in H. rewrite Hs in H.
           in_cases; discriminate.
        -- apply Hrun in H. destruct H as (_ & H & _). apply H. reflexivity.
      * intros name H. apply in_app_or in H. destruct H as [H | H].
        -- unfold setup_events, bucket_events in H. rewrite Hs in H.
           in_cases; discriminate.
        -- apply Hrun in H. destruct H as (_ & _ & H). apply (H name). reflexivity.
    + intros k _. rewrite count_app.
      rewrite (count_none is_dataset_call (if test_only args then _ else _)).
      * unfold setup_events, bucket_events.
        destruct (String.eqb (scheme u) "gs"),
          (0 <=? aspect_ratio_group_factor args),
          (distributed (init_distributed_mode env r args)),
          (Py.truthy (resume args)); reflexivity.
      * intros e He. apply Hrun in He. apply He.
  - rewrite (main_worker_unknown_dataset env r args u Hu Hk).
    unfold trace, fst, bucket_events.
    split; [| split].
    + intros _ _ d H. in_cases; discriminate.
    + intros Hs. apply String.eqb_neq in Hs. rewrite Hs.
      split; [| split].
      * intros d H. in_cases; discriminate.
      * intros H. in_cases; discriminate.
      * intros name H. in_cases; discriminate.
    + intros k Hk'. discriminate Hk'.
Qed.

Lemma bucket_detection_witness :
  let d := mkDataset get_coco "coco" "train" (get_transform true)
             (Some (mkBucket "bucket")) in
  ds_root d = strip_leading_separator "/coco"
  /\ ds_gs_bucket d = Some (mkBucket "bucket").
Proof.
  intros d.
  destruct (bucket_detection python_env 0
              (set_data_path "gs://bucket/coco" default_args)
              (mkParseResult "gs" "bucket" "/coco" "" "" "") eq_refl)
    as [H _].
  apply (H eq_refl (or_intror eq_refl) d).
  do 5 right. left. reflexivity.
Defined.

(* ================================================================== *)
(** ** The epoch loop and its checkpoints *)

Lemma filter_none (p : event -> bool) (t : list event) :
  (forall e, In e t -> p e = false) -> filter p t = [].
Proof.
  induction t as [| e t IH]; intros H; simpl.
  - reflexivity.
  - rewrite (H e (or_introl eq_refl)). apply IH.
    intros e' He'. apply H. right. exact He'.
Qed.

Lemma setup_events_no_save (env : Env) (r : Z) (args : Args)
    (u : ParseResult) (fn : DsFn) (n : Z) :
  filter is_save (setup_events env r args u fn n) = [].
Proof.
  apply filter_none. intros e He. apply setup_events_not_run in He.
  apply (not_run_event_kinds e He).
Qed.

(** The checkpoint writes of the epoch loop: one per epoch, in order,
    when the output directory is set and the process has rank 0. *)
Lemma epoch_loop_saves (args : Args) (ctx : DistCtx) (dl dl_test : DataLoader)
    (l : list Z) :
  filter is_save (flat_map (epoch_events args ctx dl dl_test) l)
  = if Py.truthy (output_dir args) && (rank ctx =? 0)
    then map (fun epoch => TorchSave (checkpoint_dict args ctx epoch)
                             (checkpoint_file args epoch)) l
    else [].
Proof.
  induction l as [| epoch l IH]; simpl.
  - destruct (Py.truthy (output_dir args) && (rank ctx =? 0)); reflexivity.
  - rewrite filter_app, IH. unfold epoch_events.
    destruct (distributed ctx),
      (Py.truthy (output_dir args) && (rank ctx =? 0)); reflexivity.
Qed.

(** The claim as written fails: with [--output-dir ''] a rank-zero
    worker trains for its two epochs and writes no checkpoint. *)
Lemma empty_output_dir_writes_no_checkpoint :
  let args := set_output_dir "" (set_epochs 2 default_args) in
  let t := trace (main_worker python_env 0 args) in
  rank (init_distributed_mode python_env 0 args) = 0
  /\ count is_train t = 2%nat
  /\ count is_save t = 0%nat.
Proof. repeat split. Qed.

(** C5, amended: in a training run whose output directory is non-empty,
    the rank-zero process writes exactly one checkpoint per epoch, in
    epoch order; each holds exactly the four fields ['model'],
    ['optimizer'], ['lr_scheduler'] and ['args'] and goes to the file
    ['model_<epoch>.pth'] of the output directory; a process of another
    rank writes none, and none is written when the output directory is
    empty. *)
Theorem one_checkpoint_per_epoch (env : Env) (r : Z) (args : Args)
    (u : ParseResult) (fn : DsFn) (n : Z) :
  urlparse env (data_path args) = Some u ->
  dataset_kind (dataset args) = Some (fn, n) ->
  test_only args = false ->
  let ctx := init_distributed_mode env r args in
  let args' := worker_args u args in
  filter is_save (trace (main_worker env r args))
  = (if Py.truthy (output_dir args) && (rank ctx =? 0)
     then map (fun epoch => TorchSave (checkpoint_dict args' ctx epoch)
                              (checkpoint_file args' epoch))
            (range (epochs args))
     else [])
  /\ (forall epoch,
        keys (checkpoint_dict args' ctx epoch)
        = ["model"; "optimizer"; "lr_scheduler"; "args"])
  /\ (forall epoch,
        checkpoint_file args' epoch
        = Py.path_join (output_dir args)
            ("model_" ++ Py.str_of_int epoch ++ ".pth")).
Proof.
  intros Hu Hk Ht ctx args'.
  destruct (worker_args_fields u args) as (_ & Hout & Hep & _).
  split; [| split].
  - rewrite (main_worker_runs env r args u fn n Hu Hk), Ht.
    unfold trace, fst, training_events.
    rewrite filter_app, setup_events_no_save. cbn [filter is_save app].
    rewrite filter_app, epoch_loop_saves. cbn [filter is_save].
    fold args'. fold ctx. rewrite app_nil_r.
    subst args'. rewrite Hout, Hep. reflexivity.
  - intros epoch. reflexivity.
  - intros epoch. unfold checkpoint_file. subst args'. rewrite Hout.
    reflexivity.
Qed.

Lemma one_checkpoint_per_epoch_witness :
  filter is_save
    (trace (main_worker python_env 0 (set_epochs 2 default_args)))
  = [ TorchSave
        (checkpoint_dict (set_epochs 2 default_args) (mkDistCtx false 0) 0)
        "./model_0.pth";
      TorchSave
        (checkpoint_dict (set_epochs 2 default_args) (mkDistCtx false 0) 1)
        "./model_1.pth" ].
Proof.
  apply (one_checkpoint_per_epoch python_env 0 (set_epochs 2 default_args)
           (mkParseResult "" "" "/datasets01/COCO/022719/" "" "" "")
           get_coco 91 eq_refl eq_refl eq_refl).
Defined.

Lemma range_spec (n k : Z) : In k (range n) <-> 0 <= k < n.
Proof.
  unfold range. rewrite in_map_iff. split.
  - intros (i & <- & Hi). apply in_seq in Hi. lia.
  - intros Hk. exists (Z.to_nat k). split; [lia |]. apply in_seq. lia.
Qed.

(** The claim as written fails: with [--output-dir ''] the single epoch
    of a rank-zero worker is a training pass, a scheduler step and an
    evaluation, with no checkpoint save between them. *)
Lemma epoch_without_checkpoint_save :
  let args := set_output_dir "" (set_epochs 1 default_args) in
  run_kinds (trace (main_worker python_env 0 args))
  = [KTrain; KStep; KEvaluate].
Proof. reflexivity. Qed.

(** C6, amended: a training run performs, for every epoch index from 0
    up to (and excluding) the configured epoch count, in this order: in
    distributed mode the sampler's [set_epoch]; one training pass over
    the train loader; one scheduler step; when the output directory is
    non-empty, one checkpoint save (written by the rank-zero process);
    one evaluation over the test loader.  Nothing of the kind happens
    before the loop. *)
Theorem epoch_loop_order (env : Env) (r : Z) (args : Args)
    (u : ParseResult) (fn : DsFn) (n : Z) :
  urlparse env (data_path args) = Some u ->
  dataset_kind (dataset args) = Some (fn, n) ->
  test_only args = false ->
  let ctx := init_distributed_mode env r args in
  let args' := worker_args u args in
  let dl := train_loader ctx fn u args in
  let dl_test := test_loader ctx fn u args in
  trace (main_worker env r args)
  = (setup_events env r args u fn n
     ++ [Print "Start training"]
     ++ flat_map
          (fun epoch =>
             (if distributed ctx then [SetEpoch epoch] else [])
             ++ [TrainOneEpoch dl epoch (print_freq args); SchedulerStep]
             ++ (if Py.truthy (output_dir args)
                 then trace (save_on_master ctx (checkpoint_dict args' ctx epoch)
                               (checkpoint_file args' epoch))
                 else [])
             ++ [Evaluate dl_test])
          (range (epochs args))
     ++ [Print ("Training time " ++ total_time_str env)])%list
  /\ (forall e, In e (setup_events env r args u fn n) ->
        is_run_event e = false)
  /\ (forall epoch, In epoch (range (epochs args)) <-> 0 <= epoch < epochs args).
Proof.
  intros Hu Hk Ht ctx args' dl dl_test.
  destruct (worker_args_fields u args) as (_ & Hout & Hep & _ & _ & Hpf).
  split; [| split].
  - rewrite (main_worker_runs env r args u fn n Hu Hk), Ht.
    unfold trace at 1, fst, training_events.
    fold ctx. fold args'. fold dl. fold dl_test.
    f_equal. cbn [app]. f_equal. f_equal.
    + subst args'. rewrite Hep. apply flat_map_ext. intros epoch.
      unfold epoch_events, save_on_master, when. rewrite Hout, Hpf.
      destruct (distributed ctx), (Py.truthy (output_dir args)),
        (rank ctx =? 0); reflexivity.
  - intros e He. apply (setup_events_not_run env r args u fn n e He).
  - intros epoch. apply range_spec.
Qed.

Lemma epoch_loop_order_witness :
  run_kinds (trace (main_worker python_env 0 (set_epochs 2 default_args)))
  = [KTrain; KStep; KSave; KEvaluate; KTrain; KStep; KSave; KEvaluate].
Proof.
  rewrite (proj1 (epoch_loop_order python_env 0 (set_epochs 2 default_args)
                    (mkParseResult "" "" "/datasets01/COCO/022719/" "" "" "")
                    get_coco 91 eq_refl eq_refl eq_refl)).
  reflexivity.
Defined.

(* ================================================================== *)
(** ** The URL parser: when the path starts with the separator *)

Lemma splitnetloc_rest (s : string) :
  first_char_is (fun a => Urllib.netloc_delim a = true)
    (snd (Urllib.splitnetloc s)).
Proof.
  induction s as [| a s IH]; simpl.
  - exact I.
  - destruct (Urllib.netloc_delim a) eqn:Ha.
    + exact Ha.
    + destruct (Urllib.splitnetloc s) as [d0 t0]. exact IH.
Qed.

(** What is left of a text once cut at the first [c]: it starts as the
    text did, and not with [c]. *)
Lemma partition_head (P : ascii -> Prop) (c : ascii) (s : string) :
  first_char_is P s ->
  first_char_is (fun a => P a /\ Ascii.eqb a c = false)
    (fst (Py.partition c s)).
Proof.
  unfold Py.partition. destruct s as [| a s]; simpl; [auto |].
  intros HP. destruct (Ascii.eqb a c) eqn:Ha; simpl; [exact I |].
  destruct (Py.split_once c s) as [[h t] |]; simpl; auto.
Qed.

(** In the model of [urlparse], a ["gs"] URL that names a bucket has a
    path that is empty or starts with the separator. *)
Lemma gs_bucket_url_path (url : string) (u : ParseResult) :
  Urllib.urlparse url = Some u ->
  scheme u = "gs" ->
  netloc u <> "" ->
  path u = "" \/ Py.startswith (path u) "/" = true.
Proof.
  unfold Urllib.urlparse, Urllib.urlsplit.
  destruct (Urllib.split_scheme url) as [sch url1].
  destruct (Py.startswith url1 "//").
  - pose proof (splitnetloc_rest (Py.slice_from 2 url1)) as H2.
    destruct (Urllib.splitnetloc (Py.slice_from 2 url1)) as [nl url2].
    cbn [snd] in H2.
    destruct (Urllib.bad_brackets nl); [discriminate |].
    apply (partition_head _ "#") in H2.
    destruct (Py.partition "#" url2) as [url3 frag]. cbn [fst] in H2.
    apply (partition_head _ "?") in H2.
    destruct (Py.partition "?" url3) as [url4 qry]. cbn [fst] in H2.
    destruct (Urllib.in_uses_params sch && Py.contains ";" url4) eqn:Hp.
    + destruct (Urllib.splitparams url4) as [p' prm].
      intros H. inversion H. subst u. cbn [scheme]. intros ->. discriminate Hp.
    + intros H. inversion H. subst u. cbn [scheme netloc path]. intros _ _.
      destruct url4 as [| a rest]; [left; reflexivity | right].
      cbn [first_char_is] in H2. destruct H2 as ((Hd & Hf) & Hq).
      unfold Urllib.netloc_delim in Hd. rewrite Hf, Hq in Hd.
      rewrite !orb_false_r in Hd. apply Ascii.eqb_eq in Hd. subst a.
      reflexivity.
  - destruct (Py.partition "#" url1) as [url3 frag].
    destruct (Py.partition "?" url3) as [url4 qry].
    cbn [Urllib.bad_brackets Py.contains andb orb].
    destruct (Urllib.in_uses_params sch && Py.contains ";" url4);
      [ destruct (Urllib.splitparams url4) as [p' prm] |];
      intros H; inversion H; subst u; cbn [netloc];
      intros _ Hnl; contradiction Hnl; reflexivity.
Qed.

(* ================================================================== *)
(** ** How a run ends *)

Lemma bind_ok_trace {A B : Type} (t : list event) (a : A) (f : A -> M B) :
  bind (t, Ok a) f = ((t ++ trace (f a))%list, outcome (f a)).
Proof. unfold bind, trace, outcome. destruct (f a) as [t' r]. reflexivity. Qed.

(** The launcher when the world-size check fails. *)
Lemma main_rejects (env : Env) (args : Args) :
  negb (effective_world_size args =? 1)
  && (effective_world_size args <? Py.len (local_gpus args)) = true ->
  main env args
  = ((mkdir_events args ++ [Print world_size_message])%list, Exited 0).
Proof.
  unfold main, effective_world_size, mkdir_events.
  destruct ((world_size args =? 1) && (1 <? Py.len (local_gpus args))).
  - cbn [world_size local_gpus set_world_size]. intros ->.
    destruct (Py.truthy (output_dir args)); reflexivity.
  - intros ->. destruct (Py.truthy (output_dir args)); reflexivity.
Qed.

Lemma main_worker_makes_no_directory (env : Env) (r : Z) (args : Args)
    (e : event) :
  In e (trace (main_worker env r args)) -> is_mkdir e = false.
Proof.
  destruct (urlparse env (data_path args)) as [u |] eqn:Hu.
  - destruct (dataset_kind (dataset args)) as [[fn n] |] eqn:Hk.
    + rewrite (main_worker_runs env r args u fn n Hu Hk).
      unfold trace, fst, training_events, setup_events, bucket_events,
        epoch_events.
      intros H. in_cases; reflexivity.
    + rewrite (main_worker_unknown_dataset env r args u Hu Hk).
      unfold trace, fst, bucket_events. intros H. in_cases; reflexivity.
  - rewrite (main_worker_bad_url env r args Hu).
    unfold trace, fst. intros H. in_cases; reflexivity.
Qed.

(** However a worker ends, it is not by [exit()] with a non-zero
    status. *)
Lemma main_worker_ends (env : Env) (r : Z) (args : Args) :
  exit_status (outcome (main_worker env r args)) = 0
  \/ exists e, outcome (main_worker env r args) = Raised e.
Proof.
  destruct (urlparse env (data_path args)) as [u |] eqn:Hu.
  - destruct (dataset_kind (dataset args)) as [[fn n] |] eqn:Hk.
    + rewrite (main_worker_runs env r args u fn n Hu Hk). left. reflexivity.
    + rewrite (main_worker_unknown_dataset env r args u Hu Hk).
      left. reflexivity.
  - rewrite (main_worker_bad_url env r args Hu). right. eexists. reflexivity.
Qed.

(** X2: the program never ends with a non-zero status through [exit()]:
    whatever the arguments, it ends with status 0 -- also when it
    refuses the world size or the dataset name -- or by an exception. *)
Theorem refusals_exit_with_status_zero (env : Env) (args : Args) :
  exit_status (outcome (main env args)) = 0
  \/ exists e, outcome (main env args) = Raised e.
Proof.
  destruct (negb (effective_world_size args =? 1)
            && (effective_world_size args <? Py.len (local_gpus args)))
    eqn:Hcheck.
  - rewrite (main_rejects env args Hcheck). left. reflexivity.
  - rewrite (main_launches env args Hcheck), bind_ok_trace.
    unfold outcome at 1 3, snd.
    destruct (negb (node_rank args =? 0) || (1 <? Py.len (local_gpus args))).
    + left. reflexivity.
    + destruct (local_gpus args) as [| g rest].
      * right. eexists. reflexivity.
      * apply main_worker_ends.
Qed.

(** X3: the output directory is made before anything else, the
    world-size check included: with a non-empty [--output-dir] the
    first event of the program is that [mkdir], even in a run the
    check then refuses; with an empty one no directory is ever made. *)
Theorem output_dir_is_made_first (env : Env) (args : Args) :
  (Py.truthy (output_dir args) = true ->
   exists rest, trace (main env args) = Mkdir (output_dir args) :: rest)
  /\ (Py.truthy (output_dir args) = false ->
      forall e, In e (trace (main env args)) -> is_mkdir e = false).
Proof.
  destruct (negb (effective_world_size args =? 1)
            && (effective_world_size args <? Py.len (local_gpus args)))
    eqn:Hcheck.
  - rewrite (main_rejects env args Hcheck). unfold trace, fst, mkdir_events.
    split; intros ->.
    + eexists. reflexivity.
    + intros e H. in_cases. reflexivity.
  - rewrite (main_launches env args Hcheck), bind_ok_trace.
    unfold trace at 1 3, fst, mkdir_events.
    split; intros ->.
    + eexists. reflexivity.
    + intros e H. cbn [app] in H. apply in_app_or in H. destruct H as [H | H].
      * apply cuda_info_events_are_prints in H. destruct H as (line & ->).
        reflexivity.
      * destruct (negb (node_rank args =? 0) || (1 <? Py.len (local_gpus args))).
        -- unfold trace, fst, emit in H. in_cases. reflexivity.
        -- destruct (local_gpus args) as [| g rest].
           ++ destruct H.
           ++ apply (main_worker_makes_no_directory _ _ _ e H).
Qed.

Lemma output_dir_is_made_first_witness :
  exists rest,
    trace (main python_env
             (set_world_size 2 (set_local_gpus [0; 1; 2] default_args)))
    = Mkdir "." :: rest.
Proof.
  apply (output_dir_is_made_first python_env
           (set_world_size 2 (set_local_gpus [0; 1; 2] default_args))).
  reflexivity.
Defined.

(** X4: whenever the launcher spawns, it spawns as many processes as
    GPUs are listed, hands them the parsed arguments with at most the
    world size changed, and that world size is not below the number of
    processes. *)
Theorem spawn_world_size_covers_processes (env : Env) (args : Args)
    (n : Z) (a : Args) :
  In (MultiprocessingSpawn n a) (trace (main env args)) ->
  n = Py.len (local_gpus args)
  /\ a = set_world_size (effective_world_size args) args
  /\ n <= world_size a.
Proof.
  destruct (negb (effective_world_size args =? 1)
            && (effective_world_size args <? Py.len (local_gpus args)))
    eqn:Hcheck.
  - rewrite (main_rejects env args Hcheck). unfold trace, fst, mkdir_events.
    intros H. in_cases; discriminate.
  - rewrite (main_launches env args Hcheck), bind_ok_trace.
    unfold trace at 1, fst. intros H.
    apply in_app_or in H. destruct H as [H | H].
    + apply launch_prefix_events in H. destruct H as [H _]. discriminate H.
    + destruct (negb (node_rank args =? 0) || (1 <? Py.len (local_gpus args))).
      * unfold trace, fst, emit in H. in_cases.
        injection H as <- <-. split; [reflexivity |]. split; [reflexivity |].
        cbn [world_size set_world_size].
        apply andb_false_iff in Hcheck. destruct Hcheck as [H1 | H2].
        -- apply negb_false_iff, Z.eqb_eq in H1. rewrite H1.
           unfold effective_world_size in H1.
           destruct (Z.eqb_spec (world_size args) 1) as [E | E];
             destruct (Z.ltb_spec 1 (Py.len (local_gpus args))) as [L | L];
             cbn [andb] in H1; lia.
        -- apply Z.ltb_ge in H2. exact H2.
      * destruct (local_gpus args) as [| g rest].
        -- destruct H.
        -- apply main_worker_spawns_nothing in H. discriminate H.
Qed.

Lemma spawn_world_size_covers_processes_witness :
  2 <= world_size (set_world_size 2 (set_local_gpus [0; 1] default_args)).
Proof.
  assert (H : In (MultiprocessingSpawn 2
                    (set_world_size 2 (set_local_gpus [0; 1] default_args)))
                (trace (main python_env (set_local_gpus [0; 1] default_args)))).
  { do 3 right. left. reflexivity. }
  apply (spawn_world_size_covers_processes python_env
           (set_local_gpus [0; 1] default_args) 2 _ H).
Defined.

(* ================================================================== *)
(** ** What a worker builds *)

Lemma flat_map_nil {A B : Type} (f : A -> list B) (l : list A) :
  (forall x, In x l -> f x = []) -> flat_map f l = [].
Proof.
  induction l as [| x l IH]; intros H; simpl.
  - reflexivity.
  - rewrite (H x (or_introl eq_refl)), IH; [reflexivity |].
    intros y Hy. apply H. right. exact Hy.
Qed.

(** The events after the setup are prints and events of the epoch loop. *)
Lemma run_part_events (env : Env) (args : Args) (ctx : DistCtx)
    (dl dl_test : DataLoader) (b : bool) (e : event) :
  In e (if b then [Evaluate dl_test]
        else training_events env args ctx dl dl_test) ->
  is_run_event e = true \/ exists line, e = Print line.
Proof.
  unfold training_events, epoch_events. intros H.
  in_cases; try (left; reflexivity); right; eexists; reflexivity.
Qed.

(** The dataset constructions of a worker, whatever its arguments. *)
Lemma main_worker_dataset_calls (env : Env) (r : Z) (args : Args) :
  dataset_calls (trace (main_worker env r args))
  = match urlparse env (data_path args), dataset_kind (dataset args) with
    | Some u, Some (fn, _) =>
        [worker_dataset fn u args true; worker_dataset fn u args false]
    | _, _ => []
    end.
Proof.
  destruct (urlparse env (data_path args)) as [u |] eqn:Hu.
  - destruct (dataset_kind (dataset args)) as [[fn n] |] eqn:Hk.
    + rewrite (main_worker_runs env r args u fn n Hu Hk).
      unfold trace, fst, dataset_calls. rewrite flat_map_app.
      rewrite (flat_map_nil _ (if test_only args then _ else _)).
      * unfold setup_events, bucket_events.
        destruct (String.eqb (scheme u) "gs"),
          (0 <=? aspect_ratio_group_factor args),
          (distributed (init_distributed_mode env r args)),
          (Py.truthy (resume args)); reflexivity.
      * intros e He. apply run_part_events in He.
        destruct He as [He | (line & ->)]; [| reflexivity].
        destruct e; try discriminate He; reflexivity.
    + rewrite (main_worker_unknown_dataset env r args u Hu Hk).
      unfold trace, fst, bucket_events.
      destruct (String.eqb (scheme u) "gs"); reflexivity.
  - rewrite (main_worker_bad_url env r args Hu). reflexivity.
Qed.

(** X5: a worker that gets through its setup asks for exactly two
    datasets, the training one first: both from the same construction
    function, data path and bucket; the training set with the
    transforms [ToTensor] then [RandomHorizontalFlip(0.5)], the
    validation set with [ToTensor] alone. *)
Theorem train_and_val_datasets (env : Env) (r : Z) (args : Args)
    (u : ParseResult) (fn : DsFn) (n : Z) :
  urlparse env (data_path args) = Some u ->
  dataset_kind (dataset args) = Some (fn, n) ->
  let root := data_path (worker_args u args) in
  let bucket := worker_bucket u in
  dataset_calls (trace (main_worker env r args))
  = [ mkDataset fn root "train"
        (mkCompose [ToTensor; RandomHorizontalFlip 0.5%float]) bucket;
      mkDataset fn root "val" (mkCompose [ToTensor]) bucket ].
Proof.
  intros Hu Hk root bucket.
  rewrite main_worker_dataset_calls, Hu, Hk. reflexivity.
Qed.

Lemma train_and_val_datasets_witness :
  dataset_calls (trace (main_worker python_env 0 default_args))
  = [ mkDataset get_coco "/datasets01/COCO/022719/" "train"
        (mkCompose [ToTensor; RandomHorizontalFlip 0.5%float]) None;
      mkDataset get_coco "/datasets01/COCO/022719/" "val"
        (mkCompose [ToTensor]) None ].
Proof.
  apply (train_and_val_datasets python_env 0 default_args
           (mkParseResult "" "" "/datasets01/COCO/022719/" "" "" "")
           get_coco 91 eq_refl eq_refl).
Defined.

(** X6: the model is created once, under the name and the pretrained
    flag of the arguments, with the class count of the chosen dataset:
    91 for ["coco"], 2 for ["coco_kp"]. *)
Theorem model_gets_dataset_class_count (env : Env) (r : Z) (args : Args)
    (u : ParseResult) (fn : DsFn) (n : Z) :
  urlparse env (data_path args) = Some u ->
  dataset_kind (dataset args) = Some (fn, n) ->
  model_creations (trace (main_worker env r args))
  = [(model args, n, pretrained args)]
  /\ ((dataset args = "coco" /\ n = 91)
      \/ (dataset args = "coco_kp" /\ n = 2)).
Proof.
  intros Hu Hk. split.
  - rewrite (main_worker_runs env r args u fn n Hu Hk).
    unfold trace, fst, model_creations. rewrite flat_map_app.
    rewrite (flat_map_nil _ (if test_only args then _ else _)).
    + unfold setup_events, bucket_events.
      destruct (String.eqb (scheme u) "gs"),
        (0 <=? aspect_ratio_group_factor args),
        (distributed (init_distributed_mode env r args)),
        (Py.truthy (resume args)); reflexivity.
    + intros e He. apply run_part_events in He.
      destruct He as [He | (line & ->)]; [| reflexivity].
      destruct e; try discriminate He; reflexivity.
  - destruct (dataset_kind_cases _ _ _ Hk) as [(Hc & _ & ->) | (_ & Hc & _ & ->)];
      apply String.eqb_eq in Hc; auto.
Qed.

Lemma model_gets_dataset_class_count_witness :
  model_creations
    (trace (main_worker python_env 0 (set_dataset "coco_kp" default_args)))
  = [("fasterrcnn_resnet50_fpn", 2, false)].
Proof.
  apply (model_gets_dataset_class_count python_env 0
           (set_dataset "coco_kp" default_args)
           (mkParseResult "" "" "/datasets01/COCO/022719/" "" "" "")
           get_coco_kp 2 eq_refl eq_refl).
Defined.

(** X7: the dataset name is checked late.  With an unrecognised name a
    worker constructs no dataset, creates no model and neither trains
    nor evaluates; but the distributed mode is already initialised, and
    for a ["gs"] data path the storage client is already created and
    the bucket already requested when the message is printed. *)
Theorem unknown_dataset_stops_after_bucket (env : Env) (r : Z) (args : Args)
    (u : ParseResult) :
  urlparse env (data_path args) = Some u ->
  dataset_kind (dataset args) = None ->
  let t := trace (main_worker env r args) in
  dataset_calls t = []
  /\ model_creations t = []
  /\ run_kinds t = []
  /\ t = (InitDistributedMode r
          :: (if String.eqb (scheme u) "gs"
              then [ FilterWarnings; StorageClient; GetBucket (netloc u);
                     Print ("Streaming datasets from Google Cloud Storage "
                            ++ "bucket named '" ++ netloc u ++ "'") ]
              else [])
          ++ [Print "Dataset must be 'coco' or 'coco_kp'"])%list.
Proof.
  intros Hu Hk t. subst t.
  rewrite (main_worker_unknown_dataset env r args u Hu Hk).
  unfold trace, fst, bucket_events.
  destruct (String.eqb (scheme u) "gs"); repeat split.
Qed.

Lemma unknown_dataset_stops_after_bucket_witness :
  trace (main_worker python_env 0
           (set_dataset "voc" (set_data_path "gs://bucket/voc" default_args)))
  = [ InitDistributedMode 0; FilterWarnings; StorageClient;
      GetBucket "bucket";
      Print "Streaming datasets from Google Cloud Storage bucket named 'bucket'";
      Print "Dataset must be 'coco' or 'coco_kp'" ].
Proof.
  apply (unknown_dataset_stops_after_bucket python_env 0
           (set_dataset "voc" (set_data_path "gs://bucket/voc" default_args))
           (mkParseResult "gs" "bucket" "/voc" "" "" "") eq_refl eq_refl).
Defined.

(** X8: a non-empty [--resume] makes the worker read that one file and
    restore, in this order, the model, the optimizer and the scheduler,
    before it evaluates or trains; an empty one reads and restores
    nothing.  The ['args'] entry of a checkpoint is never read back. *)
Theorem resume_restores_three_states (env : Env) (r : Z) (args : Args)
    (u : ParseResult) (fn : DsFn) (n : Z) :
  urlparse env (data_path args) = Some u ->
  dataset_kind (dataset args) = Some (fn, n) ->
  let t := trace (main_worker env r args) in
  torch_loads t = (if Py.truthy (resume args) then [resume args] else [])
  /\ loaded_keys t
     = (if Py.truthy (resume args)
        then ["model"; "optimizer"; "lr_scheduler"] else [])
  /\ (exists pre post,
        t = (pre ++ post)%list
        /\ run_kinds pre = []
        /\ torch_loads post = [] /\ loaded_keys post = []).
Proof.
  intros Hu Hk t. subst t.
  rewrite (main_worker_runs env r args u fn n Hu Hk). unfold trace, fst.
  assert (Hrun : forall f : event -> list string,
    (forall e, is_run_event e = true -> f e = []) ->
    (forall line, f (Print line) = []) ->
    flat_map f (if test_only args
                then [Evaluate (test_loader (init_distributed_mode env r args)
                                  fn u args)]
                else training_events env (worker_args u args)
                       (init_distributed_mode env r args)
                       (train_loader (init_distributed_mode env r args) fn u args)
                       (test_loader (init_distributed_mode env r args) fn u args))
    = []).
  { intros f Hf Hp. apply flat_map_nil. intros e He.
    apply run_part_events in He. destruct He as [He | (line & ->)]; auto. }
  assert (Hload : forall e, is_run_event e = true ->
            match e with TorchLoad f => [f] | _ => [] end = []).
  { intros e He. destruct e; try discriminate He; reflexivity. }
  assert (Hkeys : forall e, is_run_event e = true ->
            match e with LoadStateDict k => [k] | _ => [] end = []).
  { intros e He. destruct e; try discriminate He; reflexivity. }
  split; [| split].
  - unfold torch_loads. rewrite flat_map_app, (Hrun _ Hload (fun _ => eq_refl)).
    unfold setup_events, bucket_events.
    destruct (String.eqb (scheme u) "gs"),
      (0 <=? aspect_ratio_group_factor args),
      (distributed (init_distributed_mode env r args)),
      (Py.truthy (resume args)); reflexivity.
  - unfold loaded_keys. rewrite flat_map_app, (Hrun _ Hkeys (fun _ => eq_refl)).
    unfold setup_events, bucket_events.
    destruct (String.eqb (scheme u) "gs"),
      (0 <=? aspect_ratio_group_factor args),
      (distributed (init_distributed_mode env r args)),
      (Py.truthy (resume args)); reflexivity.
  - eexists. eexists. split; [reflexivity |]. split; [| split].
    + apply flat_map_nil. intros e He.
      apply setup_events_not_run in He.
      destruct e; try discriminate He; reflexivity.
    + apply (Hrun _ Hload (fun _ => eq_refl)).
    + apply (Hrun _ Hkeys (fun _ => eq_refl)).
Qed.

Lemma resume_restores_three_states_witness :
  loaded_keys
    (trace (main_worker python_env 0 (set_resume "model_12.pth" default_args)))
  = ["model"; "optimizer"; "lr_scheduler"].
Proof.
  apply (resume_restores_three_states python_env 0
           (set_resume "model_12.pth" default_args)
           (mkParseResult "" "" "/datasets01/COCO/022719/" "" "" "")
           get_coco 91 eq_refl eq_refl).
Defined.


(* ================================================================== *)
(** ** Epochs and checkpoint files *)

Lemma count_flat_map (p : event -> bool) {A : Type} (f : A -> list event)
    (k : nat) (l : list A) :
  (forall x, count p (f x) = k) ->
  count p (flat_map f l) = (k * List.length l)%nat.
Proof.
  intros H. induction l as [| x l IH]; simpl.
  - rewrite Nat.mul_0_r. reflexivity.
  - rewrite count_app, H, IH. lia.
Qed.

Lemma length_range (n : Z) : List.length (range n) = Z.to_nat n.
Proof. unfold range. rewrite length_map, length_seq. reflexivity. Qed.

Lemma epoch_events_counts (args : Args) (ctx : DistCtx)
    (dl dl_test : DataLoader) (epoch : Z) :
  count is_train (epoch_events args ctx dl dl_test epoch) = 1%nat
  /\ count is_step (epoch_events args ctx dl dl_test epoch) = 1%nat
  /\ count is_evaluate (epoch_events args ctx dl dl_test epoch) = 1%nat.
Proof.
  unfold epoch_events.
  destruct (distributed ctx), (Py.truthy (output_dir args) && (rank ctx =? 0));
    repeat split.
Qed.

Lemma epoch_loop_set_epochs (args : Args) (ctx : DistCtx)
    (dl dl_test : DataLoader) (l : list Z) :
  set_epoch_calls (flat_map (epoch_events args ctx dl dl_test) l)
  = if distributed ctx then l else [].
Proof.
  unfold set_epoch_calls. induction l as [| epoch l IH]; simpl.
  - destruct (distributed ctx); reflexivity.
  - rewrite flat_map_app, IH. unfold epoch_events.
    destruct (distributed ctx),
      (Py.truthy (output_dir args) && (rank ctx =? 0)); reflexivity.
Qed.

(** X9: a training run makes exactly one training pass, one scheduler
    step and one evaluation per epoch and returns; in distributed mode
    the train sampler is told the epochs 0, 1, ... in order, otherwise
    never.  With [--epochs] zero or negative nothing is trained, saved
    or evaluated, and the run still returns normally. *)
Theorem one_pass_per_epoch (env : Env) (r : Z) (args : Args)
    (u : ParseResult) (fn : DsFn) (n : Z) :
  urlparse env (data_path args) = Some u ->
  dataset_kind (dataset args) = Some (fn, n) ->
  test_only args = false ->
  let t := trace (main_worker env r args) in
  let k := Z.to_nat (epochs args) in
  count is_train t = k
  /\ count is_step t = k
  /\ count is_evaluate t = k
  /\ set_epoch_calls t
     = (if distributed (init_distributed_mode env r args)
        then range (epochs args) else [])
  /\ outcome (main_worker env r args) = Ok tt
  /\ (epochs args <= 0 -> run_kinds t = []).
Proof.
  intros Hu Hk Ht t k. subst t k.
  destruct (worker_args_fields u args) as (_ & _ & Hep & _).
  rewrite (main_worker_runs env r args u fn n Hu Hk), Ht.
  unfold trace, outcome, fst, snd, training_events. rewrite Hep.
  assert (Hsetup : forall p,
    (forall e, is_run_event e = false -> p e = false) ->
    count p (setup_events env r args u fn n) = 0%nat).
  { intros p Hp. apply count_none. intros e He. apply Hp.
    apply (setup_events_not_run _ _ _ _ _ _ _ He). }
  assert (Hcount : forall p,
    (forall e, is_run_event e = false -> p e = false) ->
    (forall epoch,
       count p (epoch_events (worker_args u args)
                  (init_distributed_mode env r args)
                  (train_loader (init_distributed_mode env r args) fn u args)
                  (test_loader (init_distributed_mode env r args) fn u args)
                  epoch) = 1%nat) ->
    count p
      (setup_events env r args u fn n
       ++ Print "Start training"
          :: flat_map
               (epoch_events (worker_args u args)
                  (init_distributed_mode env r args)
                  (train_loader (init_distributed_mode env r args) fn u args)
                  (test_loader (init_distributed_mode env r args) fn u args))
               (range (epochs args))
          ++ [Print ("Training time " ++ total_time_str env)])%list
    = Z.to_nat (epochs args)).
  { intros p Hp H1.
    rewrite count_app, (Hsetup p Hp).
    change (Print "Start training" :: ?x)%list
      with ([Print "Start training"] ++ x)%list.
    rewrite !count_app, (count_flat_map p _ 1%nat _ H1), length_range.
    rewrite (count_none p [Print "Start training"]),
      (count_none p [Print _]).
    - lia.
    - intros e He. in_cases. apply Hp. reflexivity.
    - intros e He. in_cases. apply Hp. reflexivity. }
  split; [| split; [| split; [| split; [| split]]]].
  - apply Hcount.
    + intros e He. apply (not_run_event_kinds e He).
    + intros epoch. apply epoch_events_counts.
  - apply Hcount.
    + intros e He. apply (not_run_event_kinds e He).
    + intros epoch. apply epoch_events_counts.
  - apply Hcount.
    + intros e He. apply (not_run_event_kinds e He).
    + intros epoch. apply epoch_events_counts.
  - unfold set_epoch_calls. rewrite flat_map_app. cbn [flat_map app].
    rewrite flat_map_app. fold (set_epoch_calls
      (flat_map
         (epoch_events (worker_args u args) (init_distributed_mode env r args)
            (train_loader (init_distributed_mode env r args) fn u args)
            (test_loader (init_distributed_mode env r args) fn u args))
         (range (epochs args)))).
    rewrite epoch_loop_set_epochs. cbn [flat_map app].
    rewrite app_nil_r.
    rewrite flat_map_nil; [reflexivity |].
    intros e He. apply setup_events_not_run in He.
    destruct e; try discriminate He; reflexivity.
  - reflexivity.
  - intros Hneg. unfold range.
    replace (Z.to_nat (epochs args)) with 0%nat by lia.
    cbn [seq map flat_map app]. unfold run_kinds. rewrite flat_map_app.
    cbn [flat_map app]. rewrite app_nil_r.
    apply flat_map_nil. intros e He. apply setup_events_not_run in He.
    destruct e; try discriminate He; reflexivity.
Qed.

Lemma one_pass_per_epoch_witness :
  count is_train
    (trace (main_worker python_env 0 (set_epochs (-3) default_args)))
  = 0%nat.
Proof.
  apply (one_pass_per_epoch python_env 0 (set_epochs (-3) default_args)
           (mkParseResult "" "" "/datasets01/COCO/022719/" "" "" "")
           get_coco 91 eq_refl eq_refl eq_refl).
Defined.

(** X10: the ['args'] entry of every checkpoint a worker writes is the
    worker's own argument object as it stands after the bucket
    detection: for a ["gs"] data path its [data_path] is the rewritten
    object path, not the URL given on the command line.  A checkpoint
    has no ['epoch'] entry. *)
Theorem checkpoint_stores_rewritten_args (env : Env) (r : Z) (args : Args)
    (u : ParseResult) (ck : Checkpoint) (file : string) :
  urlparse env (data_path args) = Some u ->
  In (TorchSave ck file) (trace (main_worker env r args)) ->
  lookup "args" ck
  = Some (ArgsValue (worker_args u args) (init_distributed_mode env r args))
  /\ lookup "epoch" ck = None
  /\ (scheme u = "gs" ->
      data_path (worker_args u args) = Py.slice_from 1 (path u)).
Proof.
  intros Hu H.
  assert (Hgs : scheme u = "gs" ->
                data_path (worker_args u args) = Py.slice_from 1 (path u)).
  { intros Hs. unfold worker_args. rewrite Hs. reflexivity. }
  destruct (dataset_kind (dataset args)) as [[fn n] |] eqn:Hk.
  - rewrite (main_worker_runs env r args u fn n Hu Hk) in H.
    unfold trace, fst in H. apply in_app_or in H. destruct H as [H | H].
    + apply setup_events_not_run in H. discriminate H.
    + unfold training_events, epoch_events in H.
      in_cases; try discriminate; injection H as <- _; auto.
  - apply (main_worker_stopped_not_run env r args) in H; [discriminate H |].
    right. exists u. auto.
Qed.

Lemma checkpoint_stores_rewritten_args_witness :
  lookup "args"
    (checkpoint_dict
       (set_data_path "coco" (set_epochs 1 default_args))
       (mkDistCtx false 0) 0)
  = Some (ArgsValue (set_data_path "coco" (set_epochs 1 default_args))
            (mkDistCtx false 0)).
Proof.
  apply (checkpoint_stores_rewritten_args python_env 0
           (set_data_path "gs://bucket/coco" (set_epochs 1 default_args))
           (mkParseResult "gs" "bucket" "/coco" "" "" "")
           _ "./model_0.pth" eq_refl).
  do 16 right. left. reflexivity.
Defined.

Lemma str_of_int_inj (a b : Z) : Py.str_of_int a = Py.str_of_int b -> a = b.
Proof.
  unfold Py.str_of_int. intros H.
  assert (Hn : forall z, Z.to_int z <> Decimal.Pos Decimal.Nil
                         /\ Z.to_int z <> Decimal.Neg Decimal.Nil).
  { intros [| p | p]; simpl; split; try discriminate;
      intros [= E]; apply (Stdlib.Numbers.DecimalPos.Unsigned.to_uint_nonnil p E). }
  apply Stdlib.Numbers.DecimalZ.to_int_inj.
  assert (E : Some (Z.to_int a) = Some (Z.to_int b)).
  { rewrite <- (NilZero.isi (Z.to_int a)) by apply Hn.
    rewrite <- (NilZero.isi (Z.to_int b)) by apply Hn.
    rewrite H. reflexivity. }
  injection E as E. exact E.
Qed.

Lemma append_cancel_l (p a b : string) : p ++ a = p ++ b -> a = b.
Proof.
  induction p as [| c p IH]; simpl; intros H.
  - exact H.
  - injection H as H. apply IH. exact H.
Qed.

Lemma length_append (a b : string) :
  String.length (a ++ b) = (String.length a + String.length b)%nat.
Proof. induction a as [| c a IH]; simpl; [reflexivity | rewrite IH; reflexivity]. Qed.

Lemma append_cancel_r (s a b : string) : a ++ s = b ++ s -> a = b.
Proof.
  revert b. induction a as [| c a IH]; intros [| d b] H; simpl in H.
  - reflexivity.
  - exfalso. apply (f_equal String.length) in H.
    simpl in H. rewrite length_append in H. lia.
  - exfalso. apply (f_equal String.length) in H.
    simpl in H. rewrite length_append in H. lia.
  - injection H as -> H. f_equal. apply IH. exact H.
Qed.

(** Two epochs never share a checkpoint file. *)
Lemma checkpoint_file_inj (args : Args) (a b : Z) :
  checkpoint_file args a = checkpoint_file args b -> a = b.
Proof.
  unfold checkpoint_file, Py.path_join.
  assert (Hs : forall s, Py.startswith ("model_" ++ s) "/" = false)
    by reflexivity.
  rewrite !Hs. intros H.
  destruct (negb (Py.truthy (output_dir args))
            || Py.endswith_char (output_dir args) "/");
    apply append_cancel_l in H.
  - apply append_cancel_l, append_cancel_r, str_of_int_inj in H. exact H.
  - apply append_cancel_l, append_cancel_l, append_cancel_r,
      str_of_int_inj in H. exact H.
Qed.

Lemma NoDup_map_inj {A B : Type} (f : A -> B) (l : list A) :
  (forall a b, f a = f b -> a = b) -> NoDup l -> NoDup (map f l).
Proof.
  intros Hf Hl. induction Hl as [| x l Hx Hl IH]; simpl; constructor.
  - intros H. apply in_map_iff in H. destruct H as (y & Hy & Hin).
    apply Hf in Hy. subst y. contradiction.
  - exact IH.
Qed.

Lemma NoDup_range (n : Z) : NoDup (range n).
Proof.
  unfold range. apply NoDup_map_inj.
  - intros a b. apply Nat2Z.inj.
  - apply seq_NoDup.
Qed.

Lemma epoch_loop_saved_files (args : Args) (ctx : DistCtx)
    (dl dl_test : DataLoader) (l : list Z) :
  saved_files (flat_map (epoch_events args ctx dl dl_test) l)
  = if Py.truthy (output_dir args) && (rank ctx =? 0)
    then map (checkpoint_file args) l else [].
Proof.
  unfold saved_files. induction l as [| epoch l IH]; simpl.
  - destruct (Py.truthy (output_dir args) && (rank ctx =? 0)); reflexivity.
  - rewrite flat_map_app, IH. unfold epoch_events.
    destruct (distributed ctx),
      (Py.truthy (output_dir args) && (rank ctx =? 0)); reflexivity.
Qed.

(** X11: whatever its arguments, a worker never writes the same
    checkpoint file twice: the files it writes are the
    ['model_<epoch>.pth'] of its epochs, and two epochs never share
    one. *)
Theorem checkpoint_files_are_distinct (env : Env) (r : Z) (args : Args) :
  NoDup (saved_files (trace (main_worker env r args)))
  /\ (forall a b, checkpoint_file args a = checkpoint_file args b -> a = b).
Proof.
  split; [| apply checkpoint_file_inj].
  assert (Hnone : forall t : list event,
            (forall e, In e t -> is_run_event e = false) ->
            saved_files t = []).
  { intros t Ht. apply flat_map_nil. intros e He. apply Ht in He.
    destruct e; try discriminate He; reflexivity. }
  destruct (urlparse env (data_path args)) as [u |] eqn:Hu.
  - destruct (dataset_kind (dataset args)) as [[fn n] |] eqn:Hk.
    + rewrite (main_worker_runs env r args u fn n Hu Hk).
      unfold trace, fst, saved_files. rewrite flat_map_app.
      fold (saved_files (setup_events env r args u fn n)).
      rewrite (Hnone (setup_events env r args u fn n))
        by (intros e He; apply (setup_events_not_run _ _ _ _ _ _ _ He)).
      cbn [app]. destruct (test_only args).
      * cbn. constructor.
      * unfold training_events. cbn [flat_map app]. rewrite flat_map_app.
        cbn [flat_map]. rewrite app_nil_r.
        fold (saved_files
                (flat_map
                   (epoch_events (worker_args u args)
                      (init_distributed_mode env r args)
                      (train_loader (init_distributed_mode env r args) fn u args)
                      (test_loader (init_distributed_mode env r args) fn u args))
                   (range (epochs (worker_args u args))))).
        rewrite epoch_loop_saved_files.
        destruct (Py.truthy (output_dir (worker_args u args))
                  && (rank (init_distributed_mode env r args) =? 0)).
        -- apply NoDup_map_inj; [apply checkpoint_file_inj | apply NoDup_range].
        -- constructor.
    + rewrite Hnone; [constructor |].
      intros e He. apply (main_worker_stopped_not_run env r args e); [| exact He].
      right. exists u. auto.
  - rewrite Hnone; [constructor |].
    intros e He. apply (main_worker_stopped_not_run env r args e); [| exact He].
    left. exact Hu.
Qed.

(* ================================================================== *)
(** ** The device report *)

Lemma device_lines_nth (gpus : list Z) (ds : list CudaDevice) (s n i : nat)
    (d : CudaDevice) :
  (List.length ds <= n)%nat ->
  nth_error ds i = Some d ->
  nth_error
    (flat_map (fun p : Z * CudaDevice =>
                 [Print (device_line gpus (fst p) (snd p))])
       (combine (map Z.of_nat (seq s n)) ds)) i
  = Some (Print (device_line gpus (Z.of_nat (s + i)) d)).
Proof.
  revert s n i. induction ds as [| d0 ds IH]; intros s n i Hn Hi.
  - destruct i; discriminate Hi.
  - destruct n as [| n]; [simpl in Hn; lia |].
    destruct i as [| i].
    + simpl in Hi. injection Hi as ->. rewrite Nat.add_0_r. reflexivity.
    + replace (s + S i)%nat with (S s + i)%nat by lia.
      simpl in Hi. cbn [seq map combine flat_map app nth_error].
      apply IH; [simpl in Hn; lia | exact Hi].
Qed.

Lemma device_lines_length (gpus : list Z) (ds : list CudaDevice) (s n : nat) :
  (List.length ds <= n)%nat ->
  List.length
    (flat_map (fun p : Z * CudaDevice =>
                 [Print (device_line gpus (fst p) (snd p))])
       (combine (map Z.of_nat (seq s n)) ds))
  = List.length ds.
Proof.
  revert s n. induction ds as [| d0 ds IH]; intros s n Hn.
  - destruct (map Z.of_nat (seq s n)); reflexivity.
  - destruct n as [| n]; [simpl in Hn; lia |].
    simpl. rewrite IH; [reflexivity | simpl in Hn; lia].
Qed.

(** The line printed for a device. *)
Lemma device_report_line (env : Env) (gpus : list Z) (i : nat)
    (d : CudaDevice) :
  nth_error (cuda_devices env) i = Some d ->
  nth_error (trace (print_cuda_devices_info env gpus)) (S i)
  = Some (Print (device_line gpus (Z.of_nat i) d)).
Proof.
  intros Hi. unfold print_cuda_devices_info.
  assert (Hlen : negb (Py.len (cuda_devices env) =? 0) = true).
  { unfold Py.len. destruct (cuda_devices env); [destruct i; discriminate Hi |].
    reflexivity. }
  rewrite Hlen.
  rewrite (for_each_events _
             (fun p => [Print (device_line gpus (fst p) (snd p))]))
    by (intros [k c]; reflexivity).
  unfold trace, fst, print, emit, bind, range, Py.len.
  rewrite Nat2Z.id. cbn [app nth_error].
  rewrite (device_lines_nth gpus _ 0 _ i d); [reflexivity | lia | exact Hi].
Qed.

Lemma nearest_double_small (n : Z) :
  0 <= n < 2 ^ 53 -> Py.nearest_double n = n.
Proof.
  intros Hn. unfold Py.nearest_double.
  destruct (Z.leb_spec (Z.log2 n + 1) 53) as [H | H]; [reflexivity |].
  exfalso. destruct (Z.eq_dec n 0) as [-> | Hz].
  - cbn in H. lia.
  - assert (Hl : Z.log2 n < 53) by (apply Z.log2_lt_pow2; lia). lia.
Qed.

(** X12: on a machine whose devices have a [total_memory] that fits a
    C [size_t], [print_cuda_devices_info] only prints and returns, also
    when [--local-gpus] lists a device the machine does not have.
    Without devices it prints one line; otherwise a header and then one
    line per device, in index order, showing the device's megabytes as
    [round(total_memory / 1024 ** 2)] computes them and marked
    ["- Selected"] exactly when its index is among the listed GPUs. *)
Theorem device_report (env : Env) (gpus : list Z) :
  Forall (fun d => 0 <= total_memory d < 2 ^ 64) (cuda_devices env) ->
  let run := print_cuda_devices_info env gpus in
  outcome run = Ok tt
  /\ (cuda_devices env = [] ->
      trace run = [Print "No CUDA GPUs found in this machine."])
  /\ (cuda_devices env <> [] ->
      List.length (trace run) = S (List.length (cuda_devices env))
      /\ nth_error (trace run) 0 = Some (Print "CUDA GPUs found in this machine:")
      /\ forall i d,
           nth_error (cuda_devices env) i = Some d ->
           nth_error (trace run) (S i)
           = Some (Print ("  " ++ Py.str_of_int (Z.of_nat i) ++ ": "
                          ++ device_name d ++ " ("
                          ++ Py.str_of_int
                               (Py.round_true_div_pow2 (total_memory d) 20)
                          ++ "MB) "
                          ++ (if Py.mem (Z.of_nat i) gpus
                              then "- Selected" else "")))).
Proof.
  intros _ run. subst run.
  split; [rewrite print_cuda_devices_info_returns; reflexivity |]. split.
  - intros Hnil. unfold print_cuda_devices_info. rewrite Hnil. reflexivity.
  - intros Hne. split; [| split].
    + unfold print_cuda_devices_info.
      assert (Hlen : negb (Py.len (cuda_devices env) =? 0) = true).
      { unfold Py.len. destruct (cuda_devices env); [contradiction |].
        reflexivity. }
      rewrite Hlen.
      rewrite (for_each_events _
                 (fun p => [Print (device_line gpus (fst p) (snd p))]))
        by (intros [k c]; reflexivity).
      unfold trace, fst, print, emit, bind, range, Py.len.
      rewrite Nat2Z.id. cbn [app List.length].
      rewrite device_lines_length; [reflexivity | lia].
    + unfold print_cuda_devices_info.
      assert (Hlen : negb (Py.len (cuda_devices env) =? 0) = true).
      { unfold Py.len. destruct (cuda_devices env); [contradiction |].
        reflexivity. }
      rewrite Hlen.
      rewrite (for_each_events _
                 (fun p => [Print (device_line gpus (fst p) (snd p))]))
        by (intros [k c]; reflexivity).
      reflexivity.
    + intros i d Hi. rewrite (device_report_line env gpus i d Hi).
      reflexivity.
Qed.

Lemma device_report_witness :
  nth_error (trace (print_cuda_devices_info python_env [0])) 1
  = Some (Print "  0: Tesla V100-SXM2-16GB (16130MB) - Selected").
Proof.
  destruct (device_report python_env [0]) as (_ & _ & H).
  - constructor; [split; [discriminate | reflexivity] | constructor].
  - destruct H as (_ & _ & H); [discriminate |].
    exact (H 0%nat (mkCudaDevice "Tesla V100-SXM2-16GB" 16914055168) eq_refl).
Defined.

(** X13: for a device with less than [2 ** 53] bytes, the megabytes
    shown on its line are its [total_memory] divided by [1024 ** 2] and
    rounded to the nearest integer, a tie going to the even one. *)
Theorem device_megabytes_rounding (env : Env) (gpus : list Z) (i : nat)
    (d : CudaDevice) :
  nth_error (cuda_devices env) i = Some d ->
  0 <= total_memory d < 2 ^ 53 ->
  exists mb,
    nth_error (trace (print_cuda_devices_info env gpus)) (S i)
    = Some (Print ("  " ++ Py.str_of_int (Z.of_nat i) ++ ": "
                   ++ device_name d ++ " (" ++ Py.str_of_int mb ++ "MB) "
                   ++ (if Py.mem (Z.of_nat i) gpus
                       then "- Selected" else "")))
    /\ - 524288 <= total_memory d - mb * 1048576 <= 524288
    /\ (total_memory d - mb * 1048576 = 524288
        \/ total_memory d - mb * 1048576 = - 524288 ->
        Z.even mb = true).
Proof.
  intros Hi Hn.
  exists (Py.round_true_div_pow2 (total_memory d) 20).
  split; [rewrite (device_report_line env gpus i d Hi); reflexivity |].
  unfold Py.round_true_div_pow2. rewrite (nearest_double_small _ Hn).
  unfold Py.round_div_pow2. generalize (total_memory d) as total.
  intros total. change (2 ^ 20) with 1048576.
  pose proof (Z.div_mod total 1048576 ltac:(lia)) as Hdm.
  pose proof (Z.mod_pos_bound total 1048576 ltac:(lia)) as Hb.
  destruct (Z.ltb_spec (2 * (total mod 1048576)) 1048576) as [H1 | H1].
  - split; [lia |]. intros [H | H]; lia.
  - destruct (Z.ltb_spec 1048576 (2 * (total mod 1048576))) as [H2 | H2].
    + split; [lia |]. intros [H | H]; lia.
    + destruct (Z.even (total / 1048576)) eqn:He.
      * split; [lia |]. intros _. exact He.
      * split; [lia |]. intros _.
        rewrite Z.even_add, He. reflexivity.
Qed.

Lemma device_megabytes_rounding_witness :
  exists mb,
    nth_error (trace (print_cuda_devices_info python_env [0])) 1
    = Some (Print ("  " ++ Py.str_of_int 0 ++ ": " ++ "Tesla V100-SXM2-16GB"
                   ++ " (" ++ Py.str_of_int mb ++ "MB) " ++ "- Selected"))
    /\ - 524288 <= 16914055168 - mb * 1048576 <= 524288
    /\ (16914055168 - mb * 1048576 = 524288
        \/ 16914055168 - mb * 1048576 = - 524288 ->
        Z.even mb = true).
Proof.
  apply (device_megabytes_rounding python_env [0] 0
           (mkCudaDevice "Tesla V100-SXM2-16GB" 16914055168) eq_refl).
  split; [discriminate | reflexivity].
Defined.

(* ================================================================== *)
(** ** The bucket request *)

(** X14: a worker asks the storage client for a bucket exactly when the
    scheme of its parsed data path is ["gs"]: then once, under the
    network location of the URL as the bucket name, also when the
    dataset name is then refused; for any other scheme, and for a data
    path that does not parse, it asks for none. *)
Theorem bucket_is_requested_for_gs_only (env : Env) (r : Z) (args : Args) :
  bucket_requests (trace (main_worker env r args))
  = match urlparse env (data_path args) with
    | Some u => if String.eqb (scheme u) "gs" then [netloc u] else []
    | None => []
    end.
Proof.
  destruct (urlparse env (data_path args)) as [u |] eqn:Hu.
  - destruct (dataset_kind (dataset args)) as [[fn n] |] eqn:Hk.
    + rewrite (main_worker_runs env r args u fn n Hu Hk).
      unfold trace, fst, bucket_requests. rewrite flat_map_app.
      rewrite (flat_map_nil _ (if test_only args then _ else _)).
      * unfold setup_events, bucket_events.
        destruct (String.eqb (scheme u) "gs"),
          (0 <=? aspect_ratio_group_factor args),
          (distributed (init_distributed_mode env r args)),
          (Py.truthy (resume args)); reflexivity.
      * intros e He. apply run_part_events in He.
        destruct He as [He | (line & ->)]; [| reflexivity].
        destruct e; try discriminate He; reflexivity.
    + rewrite (main_worker_unknown_dataset env r args u Hu Hk).
      unfold trace, fst, bucket_events.
      destruct (String.eqb (scheme u) "gs"); reflexivity.
  - rewrite (main_worker_bad_url env r args Hu). reflexivity.
Qed.

(* ================================================================== *)
(** ** The optimizer and the scheduler *)

(** X16: a worker that gets through its setup creates one SGD optimizer
    from [--lr], [--momentum] and [--wd], and one multi-step scheduler
    from [--lr-steps] and [--lr-gamma].  The [--lr-step-size] flag is
    parsed and never used: whatever its value, the same optimizer and
    scheduler are created. *)
Theorem lr_step_size_is_ignored (env : Env) (r : Z) (args : Args)
    (u : ParseResult) (fn : DsFn) (n : Z) :
  urlparse env (data_path args) = Some u ->
  dataset_kind (dataset args) = Some (fn, n) ->
  forall v,
    let t := trace (main_worker env r (set_lr_step_size v args)) in
    optimizer_creations t = [(lr args, momentum args, weight_decay args)]
    /\ scheduler_creations t = [(lr_steps args, lr_gamma args)].
Proof.
  intros Hu Hk v t. subst t.
  rewrite (main_worker_runs env r (set_lr_step_size v args) u fn n Hu Hk).
  unfold trace, fst, optimizer_creations, scheduler_creations.
  rewrite !flat_map_app.
  rewrite !(flat_map_nil _ (if test_only _ then _ else _)).
  - unfold setup_events, bucket_events.
    cbn [aspect_ratio_group_factor resume set_lr_step_size].
    destruct (String.eqb (scheme u) "gs"),
      (0 <=? aspect_ratio_group_factor args),
      (distributed (init_distributed_mode env r (set_lr_step_size v args))),
      (Py.truthy (resume args)); split; reflexivity.
  - intros e He. apply run_part_events in He.
    destruct He as [He | (line & ->)]; [| reflexivity].
    destruct e; try discriminate He; reflexivity.
  - intros e He. apply run_part_events in He.
    destruct He as [He | (line & ->)]; [| reflexivity].
    destruct e; try discriminate He; reflexivity.
Qed.

Lemma lr_step_size_is_ignored_witness :
  scheduler_creations
    (trace (main_worker python_env 0 (set_lr_step_size 3 default_args)))
  = [([8; 11], 0.1%float)].
Proof.
  apply (lr_step_size_is_ignored python_env 0 default_args
           (mkParseResult "" "" "/datasets01/COCO/022719/" "" "" "")
           get_coco 91 eq_refl eq_refl 3).
Defined.
